(** * Cart and order lifecycle of the christmas-shop storefront

    A shallow embedding of the cart context ([src/contexts/CartContext.tsx]),
    the checkout handler of the cart page and the payment handler of the
    order page ([src/pages/OrderDetails.tsx]), with the properties of the
    cart and order lifecycle stated over it.

    Conventions of the embedding:
    - a JavaScript [number] that holds a quantity, a stock level or a price
      in cents is an integer of [Z];
    - [string | null] is [option string], and an optional image reference
      ([string | null | undefined]) is [option string] as well;
    - [localStorage] is a finite map from keys to the cart snapshot that
      was written under the key: [JSON.parse (JSON.stringify items)] gives
      [items] back, so the serialised text is not modelled;
    - a React state update is a function from the previous state; a
      component's effects are run in their order of declaration whenever
      one of their dependencies has changed; every call of a context
      operation is followed by its render and effects before the next
      call is made;
    - an awaited call of the API client is given by the way its promise
      settles, and the requests sent are kept in a log. *)

From stdpp Require Import base option list gmap strings.
From Stdlib Require Import ZArith Lia.

Local Open Scope string_scope.
Local Open Scope list_scope.
Local Open Scope Z_scope.

(** ** Data model *)

(** The product snapshot handed to [addToCart]. *)
Module Product.
Record t : Type := mk {
  id : string;
  name : string;
  priceCents : Z;
  imageBase64 : option string;
  stock : Z
}.
End Product.

(** [interface CartItem]. *)
Record CartItem : Type := mkCartItem {
  productId : string;
  name : string;
  priceCents : Z;
  imageBase64 : option string;
  quantity : Z;
  stock : Z
}.

(** [{ ...item, quantity: q }]. *)
Definition withQuantity (item : CartItem) (q : Z) : CartItem :=
  {| productId := productId item;
     name := name item;
     priceCents := priceCents item;
     imageBase64 := imageBase64 item;
     quantity := q;
     stock := stock item |}.

(** The object literal appended by [addToCart] for a product that has no
    line yet. *)
Definition newLine (product : Product.t) (q : Z) : CartItem :=
  {| productId := Product.id product;
     name := Product.name product;
     priceCents := Product.priceCents product;
     imageBase64 := Product.imageBase64 product;
     quantity := q;
     stock := Product.stock product |}.

(** What a state updater hands back to React: the very array it was given
    (React then skips the render and the effects), or a fresh array. *)
Inductive Update : Type :=
  | SameRef
  | NewRef (next : list CartItem).

Definition commitUpdate (prevItems : list CartItem) (u : Update) : list CartItem :=
  match u with
  | SameRef => prevItems
  | NewRef next => next
  end.

(** ** Cart operations (the updaters passed to [setItems]) *)

(** [items.find(item => item.productId === pid)]. *)
Definition findLine (pid : string) (items : list CartItem) : option CartItem :=
  find (fun item => String.eqb (productId item) pid) items.

Module Updater.

Definition addToCart (product : Product.t) (quantity : Z)
    (prevItems : list CartItem) : Update :=
  match findLine (Product.id product) prevItems with
  | Some _existingItem =>
      if quantity >? Product.stock product then SameRef
      else NewRef ((fun item =>
                      if String.eqb (productId item) (Product.id product)
                      then withQuantity item quantity
                      else item) <$> prevItems)
  | None => NewRef (prevItems ++ [newLine product quantity])
  end.

Definition removeFromCart (pid : string) (prevItems : list CartItem) : Update :=
  NewRef (filter (fun item => productId item ≠ pid) prevItems).

Definition updateQuantity (pid : string) (q : Z) (prevItems : list CartItem) : Update :=
  if q <=? 0 then removeFromCart pid prevItems
  else NewRef ((fun item =>
                  if String.eqb (productId item) pid
                  then (if q >? stock item then item else withQuantity item q)
                  else item) <$> prevItems).

Definition clearCart (_ : list CartItem) : Update := NewRef [].

End Updater.

(** The items held by the provider after the operation. *)
Definition addToCart (product : Product.t) (quantity : Z) (prevItems : list CartItem) :=
  commitUpdate prevItems (Updater.addToCart product quantity prevItems).

Definition removeFromCart (pid : string) (prevItems : list CartItem) :=
  commitUpdate prevItems (Updater.removeFromCart pid prevItems).

Definition updateQuantity (pid : string) (q : Z) (prevItems : list CartItem) :=
  commitUpdate prevItems (Updater.updateQuantity pid q prevItems).

Definition clearCart (prevItems : list CartItem) :=
  commitUpdate prevItems (Updater.clearCart prevItems).

(** [getTotalPrice] and [getTotalItems], as sums of integers. *)
Definition getTotalPrice (items : list CartItem) : Z :=
  fold_left (fun total item => total + priceCents item * quantity item) items 0.

Definition getTotalItems (items : list CartItem) : Z :=
  fold_left (fun total item => total + quantity item) items 0.

(** The totals as the code computes them. A JavaScript number is a
    double: a sum or a product of integers is exact as long as the
    operands and the result are safe integers (at most 2^53 - 1 in
    absolute value), and is rounded beyond. [SafeInteger.getTotalPrice]
    and [SafeInteger.getTotalItems] run the [reduce] of the source and
    give [Some total] when every price, quantity, product and partial sum
    met on the way is a safe integer, so that [total] is the number the
    code returns, and [None] otherwise. *)
Module SafeInteger.

(** [Number.MAX_SAFE_INTEGER]. *)
Definition MAX_SAFE_INTEGER : Z := 2 ^ 53 - 1.

(** [Number.isSafeInteger]. *)
Definition isSafeInteger (z : Z) : bool :=
  (- MAX_SAFE_INTEGER <=? z) && (z <=? MAX_SAFE_INTEGER).

Definition exact (z : Z) : option Z :=
  if isSafeInteger z then Some z else None.

Definition add (a b : Z) : option Z :=
  if isSafeInteger a && isSafeInteger b then exact (a + b) else None.

Definition mul (a b : Z) : option Z :=
  if isSafeInteger a && isSafeInteger b then exact (a * b) else None.

(** The callbacks given to [reduce]. *)
Definition priceStep (total : option Z) (item : CartItem) : option Z :=
  match total, mul (priceCents item) (quantity item) with
  | Some t, Some linePrice => add t linePrice
  | _, _ => None
  end.

Definition itemsStep (total : option Z) (item : CartItem) : option Z :=
  match total with
  | Some t => add t (quantity item)
  | None => None
  end.

(** [items.reduce((total, item) => total + (item.priceCents * item.quantity), 0)]. *)
Definition getTotalPrice (items : list CartItem) : option Z :=
  fold_left priceStep items (Some 0).

(** [items.reduce((total, item) => total + item.quantity, 0)]. *)
Definition getTotalItems (items : list CartItem) : option Z :=
  fold_left itemsStep items (Some 0).

End SafeInteger.

(** ** Sequences of cart operations *)

Inductive CartOp : Type :=
  | OpAdd (product : Product.t) (quantity : Z)
  | OpUpdate (pid : string) (quantity : Z)
  | OpRemove (pid : string).

Definition applyOp (cart : list CartItem) (op : CartOp) : list CartItem :=
  match op with
  | OpAdd product q => addToCart product q cart
  | OpUpdate pid q => updateQuantity pid q cart
  | OpRemove pid => removeFromCart pid cart
  end.

Definition runOps (ops : list CartOp) (cart : list CartItem) : list CartItem :=
  fold_left applyOp ops cart.

(** The bound a cart line is meant to respect. *)
Definition lineInBounds (item : CartItem) : Prop :=
  1 <= quantity item <= stock item.

(** The requests the product page lets through to [addToCart]: its
    [handleAddToCart] refuses a quantity above the snapshot's stock, keeps
    the quantity selector at 1 or more, and goes through [updateQuantity]
    when the product already has a line. A re-add is taken as in range
    when the quantity also fits the stock stored on the line. *)
Definition requestInRange (cart : list CartItem) (op : CartOp) : bool :=
  match op with
  | OpAdd product q =>
      (1 <=? q) && (q <=? Product.stock product) &&
      match findLine (Product.id product) cart with
      | Some line => q <=? stock line
      | None => true
      end
  | OpUpdate _ _ => true
  | OpRemove _ => true
  end.

Fixpoint requestsInRange (ops : list CartOp) (cart : list CartItem) : bool :=
  match ops with
  | [] => true
  | op :: rest => requestInRange cart op && requestsInRange rest (applyOp cart op)
  end.

(** ** The cart provider: identity, items and the persistent store *)

Module CartProvider.

Record t : Type := mk {
  userId : option string;
  items : list CartItem;
  localStorage : gmap string (list CartItem)
}.

(** [userId ? `cart_${userId}` : 'cart_guest']: [null] and the empty
    string are both falsy. *)
Definition getCartKey (userId : option string) : string :=
  match userId with
  | Some u => if String.eqb u "" then "cart_guest" else String.append "cart_" u
  | None => "cart_guest"
  end.

(** First effect, dependencies [[userId]]: the value given to [setItems]. *)
Definition loadEffect (st : t) : list CartItem :=
  default [] (localStorage st !! getCartKey (userId st)).

(** Second effect, dependencies [[items, userId]]. *)
Definition persistEffect (st : t) : t :=
  match userId st with
  | Some _ =>
      {| userId := userId st;
         items := items st;
         localStorage := <[getCartKey (userId st) := items st]> (localStorage st) |}
  | None => st
  end.

(** A render of the provider followed by its effects. Both effects see
    the items of that render; the load effect runs first and its
    [setItems] causes a second render, in which only [items] has changed
    and the persist effect runs again. *)
Definition render (userIdChanged itemsChanged : bool) (st : t) : t :=
  let afterPersist :=
    if userIdChanged || itemsChanged then persistEffect st else st in
  if userIdChanged then
    persistEffect {| userId := userId afterPersist;
                     items := loadEffect st;
                     localStorage := localStorage afterPersist |}
  else afterPersist.

(** [setItems(updater)]. *)
Definition setItems (updater : list CartItem -> Update) (st : t) : t :=
  match updater (items st) with
  | SameRef => st
  | NewRef next =>
      render false true
        {| userId := userId st; items := next; localStorage := localStorage st |}
  end.

(** [setUserId(newUserId)]: the updater flushes the current items under
    the current key and returns [[]]; then the identity is replaced. *)
Definition setUserId (newUserId : option string) (st : t) : t :=
  let flushed :=
    match userId st with
    | Some _ => <[getCartKey (userId st) := items st]> (localStorage st)
    | None => localStorage st
    end in
  render (bool_decide (newUserId ≠ userId st)) true
    {| userId := newUserId; items := []; localStorage := flushed |}.

Definition addToCart (product : Product.t) (quantity : Z) : t -> t :=
  setItems (Updater.addToCart product quantity).
Definition removeFromCart (pid : string) : t -> t :=
  setItems (Updater.removeFromCart pid).
Definition updateQuantity (pid : string) (q : Z) : t -> t :=
  setItems (Updater.updateQuantity pid q).
Definition clearCart : t -> t :=
  setItems Updater.clearCart.

(** The mutating operations of the context. *)
Inductive Mutation : Type :=
  | AddToCart (product : Product.t) (quantity : Z)
  | UpdateQuantity (pid : string) (quantity : Z)
  | RemoveFromCart (pid : string)
  | ClearCart.

Definition mutate (m : Mutation) : t -> t :=
  match m with
  | AddToCart product q => addToCart product q
  | UpdateQuantity pid q => updateQuantity pid q
  | RemoveFromCart pid => removeFromCart pid
  | ClearCart => clearCart
  end.

(** The stored snapshot under the active key equals the in-memory cart. *)
Definition persisted (st : t) : Prop :=
  localStorage st !! getCartKey (userId st) = Some (items st).

(** A session of the application: the provider is mounted over the
    store left by earlier sessions ([useState(null)], [useState([])],
    then every effect runs once), and then serves identity changes and
    mutations. *)
Definition mount (store : gmap string (list CartItem)) : t :=
  render true true {| userId := None; items := []; localStorage := store |}.

Inductive Action : Type :=
  | SetUserId (newUserId : option string)
  | Mutate (m : Mutation).

Definition act (st : t) (a : Action) : t :=
  match a with
  | SetUserId newUserId => setUserId newUserId st
  | Mutate m => mutate m st
  end.

Definition session (store : gmap string (list CartItem)) (actions : list Action) : t :=
  fold_left act actions (mount store).

End CartProvider.

(** What the caller of a context operation gets back. Every operation of
    the context is declared [=> void] and has no [throw]. *)
Inductive Completion : Type :=
  | ReturnsUndefined
  | Throws (message : string).

Definition updateQuantity_call (pid : string) (q : Z) (prevItems : list CartItem)
    : Completion * Update :=
  (ReturnsUndefined, Updater.updateQuantity pid q prevItems).

Definition addToCart_call (product : Product.t) (q : Z) (prevItems : list CartItem)
    : Completion * Update :=
  (ReturnsUndefined, Updater.addToCart product q prevItems).

(** ** Calls to the API client *)

(** A value caught by [catch (err)]: an [Error] object with its message
    (what [request] and [fetch] throw), or anything else. *)
Inductive Thrown : Type :=
  | ErrorObject (message : string)
  | NotAnError.

(** How an awaited promise settles. *)
Inductive Settled (A : Type) : Type :=
  | Fulfilled (value : A)
  | Rejected (reason : Thrown).
Arguments Fulfilled {A} value.
Arguments Rejected {A} reason.

(** [err instanceof Error ? err.message : fallback]. *)
Definition messageOr (fallback : string) (err : Thrown) : string :=
  match err with
  | ErrorObject message => message
  | NotAnError => fallback
  end.

(** [s.includes(sub)]. *)
Fixpoint includes (s sub : string) : bool :=
  if String.prefix sub s then true
  else match s with
       | EmptyString => false
       | String _ rest => includes rest sub
       end.

(** The requests sent to the server, in the order they are issued. *)
Inductive ApiRequest : Type :=
  | CreateOrder (items : list (string * Z))
  | GetOrder (id : string)
  | PayOrder (id : string).

(** ** The order page *)

Inductive OrderStatus : Type := created | paid | cancelled.

Module Order.
Record item : Type := mkItem {
  itemId : string;
  productId : string;
  quantity : Z;
  unitPriceCents : Z;
  productName : string;
  productImageBase64 : option string
}.

Record t : Type := mk {
  id : string;
  status : OrderStatus;
  totalCents : Z;
  createdAt : string;
  updatedAt : string;
  orderItems : list item
}.
End Order.

(** [setTimeout(callback, delay)]; the only callback of the order page is
    [loadOrder]. *)
Inductive TimerTask : Type := LoadOrder.

Module OrderDetails.

Record t : Type := mk {
  order : option Order.t;
  loading : bool;
  error : option string;
  paying : bool;
  requests : list ApiRequest;
  timers : list (Z * TimerTask)
}.

Section Handlers.
(** [t(key, defaultText)] of react-i18next. *)
Variable translate : string -> string -> string.
(** The [:id] parameter of the route. *)
Variable routeId : option string.

(** [loadOrder], given how [apiClient.getOrder] settles. A [Some ""]
    route parameter is falsy like [undefined]. *)
Definition loadOrder (getOrder : Settled (option Order.t)) (st : t) : t :=
  match routeId with
  | None => st
  | Some rid =>
      if String.eqb rid "" then st
      else
        match getOrder with
        | Fulfilled data =>
            {| order := data; loading := false; error := error st;
               paying := paying st;
               requests := requests st ++ [GetOrder rid];
               timers := timers st |}
        | Rejected err =>
            {| order := order st; loading := false;
               error := Some (messageOr "Failed to load order" err);
               paying := paying st;
               requests := requests st ++ [GetOrder rid];
               timers := timers st |}
        end
  end.

(** [handlePay], given how [apiClient.payOrder] settles. *)
Definition handlePay (payOrder : Settled (option Order.t)) (st : t) : t :=
  match order st with
  | None => st
  | Some o =>
      match Order.status o with
      | created =>
          match payOrder with
          | Fulfilled updatedOrder =>
              {| order := updatedOrder; loading := loading st; error := None;
                 paying := false;
                 requests := requests st ++ [PayOrder (Order.id o)];
                 timers := timers st |}
          | Rejected err =>
              let errorMessage :=
                messageOr (translate "order.paymentError" "Failed to process payment") err in
              {| order := order st; loading := loading st;
                 error := Some errorMessage;
                 paying := false;
                 requests := requests st ++ [PayOrder (Order.id o)];
                 timers :=
                   if includes errorMessage "not found" || includes errorMessage "404"
                   then timers st ++ [(1000, LoadOrder)]
                   else timers st |}
          end
      | _ => st
      end
  end.

(** The oldest pending timer fires. *)
Definition fireTimer (getOrder : Settled (option Order.t)) (st : t) : t :=
  match timers st with
  | [] => st
  | (_, LoadOrder) :: pending =>
      loadOrder getOrder
        {| order := order st; loading := loading st; error := error st;
           paying := paying st; requests := requests st; timers := pending |}
  end.

End Handlers.

(** What the page renders: the loading screen, the error screen
    ([if (error || !order)], with the error text when there is one) or
    the order. An empty error string is falsy. *)
Inductive View : Type :=
  | LoadingView
  | ErrorView (message : option string)
  | OrderView (o : Order.t).

Definition view (st : t) : View :=
  if loading st then LoadingView
  else
    match error st, order st with
    | Some message, Some o =>
        if String.eqb message "" then OrderView o else ErrorView (Some message)
    | Some message, None =>
        if String.eqb message "" then ErrorView None else ErrorView (Some message)
    | None, Some o => OrderView o
    | None, None => ErrorView None
    end.

(** The pay button is part of the order screen, under
    [order.status === 'created']. *)
Definition payButtonShown (st : t) : bool :=
  match view st with
  | OrderView o =>
      match Order.status o with
      | created => true
      | _ => false
      end
  | _ => false
  end.

End OrderDetails.

(** ** The cart page: checkout *)

Module Cart.

Record t : Type := mk {
  items : list CartItem;
  checkingOut : bool;
  error : option string;
  navigated : list string;
  requests : list ApiRequest
}.

Section Handlers.
Variable translate : string -> string -> string.
(** The message of the [TypeError] raised by reading [order.id] when
    [createOrder] resolved to [null]; its text depends on the engine. *)
Variable nullOrderMessage : string.

(** [handleCheckout], given [isAuthenticated] and how
    [apiClient.createOrder] settles (with the id of the created order). *)
Definition handleCheckout (isAuthenticated : bool)
    (createOrder : Settled (option string)) (st : t) : t :=
  if negb isAuthenticated then
    {| items := items st; checkingOut := checkingOut st; error := error st;
       navigated := navigated st ++ ["/login"]; requests := requests st |}
  else if (length (items st) =? 0)%nat then
    {| items := items st; checkingOut := checkingOut st;
       error := Some (translate "cart.emptyCart" "Your cart is empty");
       navigated := navigated st; requests := requests st |}
  else
    let orderItems := (fun item => (productId item, quantity item)) <$> items st in
    match createOrder with
    | Fulfilled (Some orderId) =>
        {| items := clearCart (items st); checkingOut := false; error := None;
           navigated := navigated st ++ [String.append "/orders/" orderId];
           requests := requests st ++ [CreateOrder orderItems] |}
    | Fulfilled None =>
        {| items := clearCart (items st); checkingOut := false;
           error := Some nullOrderMessage;
           navigated := navigated st;
           requests := requests st ++ [CreateOrder orderItems] |}
    | Rejected err =>
        {| items := items st; checkingOut := false;
           error := Some (messageOr
                            (translate "cart.checkoutError"
                               "Failed to create order. Please try again.") err);
           navigated := navigated st;
           requests := requests st ++ [CreateOrder orderItems] |}
    end.
End Handlers.

(** The page after the context's [clearCart] has been called. *)
Definition clear (st : t) : t :=
  {| items := clearCart (items st); checkingOut := checkingOut st;
     error := error st; navigated := navigated st; requests := requests st |}.

(** [handleQuantityChange] of the cart page, as the lines of the context
    after it: below 1 it calls [removeFromCart]; it returns without
    calling the context when the line it finds has less stock than the
    new quantity; otherwise it calls [updateQuantity]. *)
Definition handleQuantityChange (pid : string) (newQuantity : Z)
    (lines : list CartItem) : list CartItem :=
  if newQuantity <? 1 then removeFromCart pid lines
  else
    match findLine pid lines with
    | Some item =>
        if newQuantity >? stock item then lines
        else updateQuantity pid newQuantity lines
    | None => updateQuantity pid newQuantity lines
    end.




End Cart.

(** ** The product page: quantity selector and add button *)

Module ProductDetails.

Record t : Type := mk {
  quantity : Z;
  addingToCart : bool;
  alerts : list string;
  lines : list CartItem
}.

(** [product ? Math.min(product.stock, 99) : 1]. *)
Definition maxQuantity (product : option Product.t) : Z :=
  match product with
  | Some p => Z.min (Product.stock p) 99
  | None => 1
  end.

(** [handleQuantityChange] of the product page: the value given to
    [setQuantity]. *)
Definition handleQuantityChange (product : option Product.t) (newQuantity : Z) : Z :=
  if newQuantity <? 1 then 1
  else if newQuantity >? maxQuantity product then maxQuantity product
  else newQuantity.

(** [disabled] of the add button. *)
Definition addDisabled (product : Product.t) (st : t) : bool :=
  addingToCart st || (quantity st >? Product.stock product) || (quantity st <? 1).

Section Handlers.
Variable translate : string -> string -> string.

(** [handleAddToCart]: [cartItem] is the line found in the items of the
    context; the flag [addingToCart] is put back to [false] by a timer
    500 ms later. *)
Definition handleAddToCart (product : option Product.t) (st : t) : t :=
  match product with
  | None => st
  | Some p =>
      if quantity st >? Product.stock p then
        {| quantity := quantity st; addingToCart := addingToCart st;
           alerts := alerts st ++
             [translate "productDetails.exceedsStock"
                "Cannot add more than available stock"];
           lines := lines st |}
      else
        {| quantity := 1; addingToCart := true; alerts := alerts st;
           lines :=
             match findLine (Product.id p) (lines st) with
             | Some _cartItem => updateQuantity (Product.id p) (quantity st) (lines st)
             | None => addToCart p (quantity st) (lines st)
             end |}
  end.
End Handlers.

End ProductDetails.

(** ** What the shopper can do to the cart through the pages *)

Inductive PageAction : Type :=
  | PressAdd (product : Product.t) (selected : Z)
  | ChangeQuantity (pid : string) (newQuantity : Z)
  | PressRemove (pid : string).

(** The lines of the context after an action: the add button of the
    product page ([handleAddToCart] with the selected quantity, when the
    button is not disabled), the quantity controls of the cart page, and
    its remove button. *)
Definition pageAction (translate : string -> string -> string)
    (lines : list CartItem) (a : PageAction) : list CartItem :=
  match a with
  | PressAdd product selected =>
      let st := ProductDetails.mk selected false [] lines in
      if ProductDetails.addDisabled product st then lines
      else ProductDetails.lines
             (ProductDetails.handleAddToCart translate (Some product) st)
  | ChangeQuantity pid newQuantity => Cart.handleQuantityChange pid newQuantity lines
  | PressRemove pid => removeFromCart pid lines
  end.

(** ** The application: the cart follows the authenticated user *)

Module App.

Record t : Type := mk {
  (** [user?.id]: [None] when no user is set. *)
  user : option string;
  cart : CartProvider.t
}.

(** [user?.id || null]. *)
Definition orNull (id : option string) : option string :=
  match id with
  | Some u => if String.eqb u "" then None else Some u
  | None => None
  end.

(** The providers are mounted with no user. The first run of the effect
    of [CartAuthSync] calls [setUserId(null)] on the guest provider with
    no items; its update is queued before the one of the load effect and
    writes nothing, so the provider is as after its own mount. *)
Definition mount (store : gmap string (list CartItem)) : t :=
  {| user := None; cart := CartProvider.mount store |}.

(** The effect of [CartAuthSync], dependencies [[user?.id]], when the
    authentication context sets a user. *)
Definition setUser (newId : option string) (st : t) : t :=
  if bool_decide (newId = user st) then st
  else {| user := newId; cart := CartProvider.setUserId (orNull newId) (cart st) |}.

Inductive Event : Type :=
  | SetUser (newId : option string)
  | CartMutation (m : CartProvider.Mutation).

Definition handle (st : t) (e : Event) : t :=
  match e with
  | SetUser newId => setUser newId st
  | CartMutation m => {| user := user st; cart := CartProvider.mutate m (cart st) |}
  end.

Definition run (store : gmap string (list CartItem)) (events : list Event) : t :=
  fold_left handle events (mount store).

(** The provider follows the authenticated user, and a logged-in user's
    snapshot is up to date. *)
Definition inSync (st : t) : Prop :=
  CartProvider.userId (cart st) = orNull (user st) ∧
  (is_Some (CartProvider.userId (cart st)) → CartProvider.persisted (cart st)).

End App.

(** The lines a mutation of the context leaves. *)
Definition mutationResult (m : CartProvider.Mutation) (lines : list CartItem)
    : list CartItem :=
  match m with
  | CartProvider.AddToCart product q => addToCart product q lines
  | CartProvider.UpdateQuantity pid q => updateQuantity pid q lines
  | CartProvider.RemoveFromCart pid => removeFromCart pid lines
  | CartProvider.ClearCart => clearCart lines
  end.

(** ** Sample data *)

Module Sample.
(** A product with id ["p1"] and the given stock, and another product. *)
Definition star (stock : Z) : Product.t := Product.mk "p1" "Star" 500 None stock.
Definition tree (stock : Z) : Product.t := Product.mk "p2" "Tree" 4200 (Some "img") stock.

(** The line [{productId: "p1", quantity: 2, stock: 5}]. *)
Definition line : CartItem := mkCartItem "p1" "Star" 500 None 2 5.

(** The identity translation: [t(key, defaultText)] gives the default. *)
Definition translate (key defaultText : string) : string := defaultText.

Definition order (status : OrderStatus) : Order.t :=
  Order.mk "o1" status 1000 "2024-12-24" "2024-12-24"
    [Order.mkItem "i1" "p1" 2 500 "Star" None].

Definition orderPage (status : OrderStatus) : OrderDetails.t :=
  OrderDetails.mk (Some (order status)) false None false [] [].

Definition cartPage (items : list CartItem) : Cart.t :=
  Cart.mk items false None [] [].
End Sample.

(** * Properties *)

(** ** Cart operations on the list of lines *)

Section CartLines.
Implicit Types (cart : list CartItem) (item line : CartItem)
               (product : Product.t) (pid : string) (q : Z).

Lemma addToCart_absent product q cart :
  findLine (Product.id product) cart = None →
  addToCart product q cart = cart ++ [newLine product q].
Proof.
  intros Hnone. unfold addToCart, Updater.addToCart. by rewrite Hnone.
Qed.

Lemma addToCart_present product q cart line :
  findLine (Product.id product) cart = Some line →
  addToCart product q cart =
    if q >? Product.stock product then cart
    else (fun item => if String.eqb (productId item) (Product.id product)
                      then withQuantity item q else item) <$> cart.
Proof.
  intros Hsome. unfold addToCart, Updater.addToCart. rewrite Hsome.
  by destruct (q >? Product.stock product).
Qed.

Lemma findLine_Some pid cart line :
  findLine pid cart = Some line → line ∈ cart ∧ productId line = pid.
Proof.
  intros H. apply find_some in H as [Hin Heq].
  split; [by apply list_elem_of_In | by apply String.eqb_eq].
Qed.

Lemma findLine_None pid cart :
  findLine pid cart = None ↔ pid ∉ productId <$> cart.
Proof.
  unfold findLine. induction cart as [|item cart IH]; simpl.
  - split; [intros _; apply not_elem_of_nil | done].
  - rewrite not_elem_of_cons. destruct (String.eqb_spec (productId item) pid).
    + split; [done | intros [? _]; congruence].
    + rewrite IH. split; [intros ?; split; [congruence | done] | tauto].
Qed.

Lemma findLine_app_absent pid cart line :
  findLine pid cart = None → productId line = pid →
  findLine pid (cart ++ [line]) = Some line.
Proof.
  unfold findLine. intros Hnone Hid. induction cart as [|item cart IH]; simpl in *.
  - apply String.eqb_eq in Hid. by rewrite Hid.
  - destruct (String.eqb (productId item) pid); [done | by apply IH].
Qed.

(** A map that leaves alone every line of another product is the
    identity on a cart that has no line of the product. *)
Lemma fmap_other_lines (f : CartItem → CartItem) pid cart :
  findLine pid cart = None →
  (λ item, if String.eqb (productId item) pid then f item else item) <$> cart = cart.
Proof.
  unfold findLine. induction cart as [|item cart IH]; [done |].
  intros H. simpl in H.
  destruct (String.eqb (productId item) pid) eqn:E; [done |].
  rewrite fmap_cons, E. f_equal. by apply IH.
Qed.

(** With one line per product, the line found is the only line of the
    product. *)
Lemma findLine_unique pid cart line item :
  NoDup (productId <$> cart) → findLine pid cart = Some line →
  item ∈ cart → productId item = pid → item = line.
Proof.
  unfold findLine. induction cart as [|x cart IH]; simpl; [done |].
  rewrite NoDup_cons. intros [Hx Hnd] Hfind Hin Hid.
  destruct (String.eqb_spec (productId x) pid) as [Hxp | Hxp].
  - injection Hfind as <-. apply elem_of_cons in Hin as [-> | Hin]; [done |].
    exfalso. apply Hx. rewrite Hxp, <- Hid. by apply list_elem_of_fmap_2.
  - apply elem_of_cons in Hin as [-> | Hin]; [done | by apply IH].
Qed.

Lemma fmap_ids (f : CartItem → CartItem) cart :
  (∀ item, productId (f item) = productId item) →
  productId <$> (f <$> cart) = productId <$> cart.
Proof.
  intros Hf. rewrite <- list_fmap_compose. apply list_fmap_ext.
  intros _ item _. apply Hf.
Qed.

Lemma removeFromCart_ids pid cart :
  NoDup (productId <$> cart) → NoDup (productId <$> removeFromCart pid cart).
Proof.
  unfold removeFromCart; simpl. induction cart as [|x cart IH]; [done |].
  rewrite fmap_cons, NoDup_cons. intros [Hx Hnd].
  rewrite filter_cons. case_decide; [| by apply IH].
  rewrite fmap_cons, NoDup_cons. split; [| by apply IH].
  intros Hin. apply Hx. apply list_elem_of_fmap in Hin as (y & -> & Hy).
  apply list_elem_of_fmap_2. by apply list_elem_of_filter in Hy as [_ ?].
Qed.

Lemma updateQuantity_ids pid q cart :
  NoDup (productId <$> cart) → NoDup (productId <$> updateQuantity pid q cart).
Proof.
  unfold updateQuantity, Updater.updateQuantity. destruct (q <=? 0).
  - apply removeFromCart_ids.
  - simpl. rewrite fmap_ids; [done |].
    intros item. destruct (String.eqb _ _); [| done]. by destruct (q >? _).
Qed.

Lemma addToCart_ids product q cart :
  NoDup (productId <$> cart) → NoDup (productId <$> addToCart product q cart).
Proof.
  intros Hnd. destruct (findLine (Product.id product) cart) as [line|] eqn:Hfind.
  - rewrite (addToCart_present _ _ _ _ Hfind). destruct (q >? _); [done |].
    rewrite fmap_ids; [done |].
    intros item. by destruct (String.eqb _ _).
  - rewrite (addToCart_absent _ _ _ Hfind), fmap_app. simpl.
    apply NoDup_app. split_and!; [done | | apply NoDup_singleton].
    intros x Hx ->%list_elem_of_singleton. by apply findLine_None in Hfind.
Qed.

Lemma applyOp_ids cart op :
  NoDup (productId <$> cart) → NoDup (productId <$> applyOp cart op).
Proof.
  destruct op; simpl;
    [apply addToCart_ids | apply updateQuantity_ids | apply removeFromCart_ids].
Qed.

Lemma removeFromCart_bounds pid cart :
  Forall lineInBounds cart → Forall lineInBounds (removeFromCart pid cart).
Proof.
  unfold removeFromCart; simpl. rewrite !Forall_forall.
  intros H x Hx. apply H. by apply list_elem_of_filter in Hx as [_ ?].
Qed.

Lemma updateQuantity_bounds pid q cart :
  Forall lineInBounds cart → Forall lineInBounds (updateQuantity pid q cart).
Proof.
  unfold updateQuantity, Updater.updateQuantity.
  destruct (Z.leb_spec q 0) as [Hq | Hq]; [apply removeFromCart_bounds |].
  simpl. rewrite Forall_fmap. intros Hall.
  eapply Forall_impl; [exact Hall |]. intros item Hb. simpl.
  destruct (String.eqb _ _); [| done].
  destruct (Z.gtb_spec q (stock item)); [done |].
  unfold lineInBounds; simpl. lia.
Qed.

Lemma addToCart_bounds product q cart :
  NoDup (productId <$> cart) → requestInRange cart (OpAdd product q) = true →
  Forall lineInBounds cart → Forall lineInBounds (addToCart product q cart).
Proof.
  intros Hnd Hreq Hb. simpl in Hreq.
  apply andb_true_iff in Hreq as [Hreq Hline].
  apply andb_true_iff in Hreq as [Hlo Hhi].
  apply Z.leb_le in Hlo, Hhi.
  destruct (findLine (Product.id product) cart) as [line|] eqn:Hfind.
  - rewrite (addToCart_present _ _ _ _ Hfind). destruct (q >? _); [done |].
    apply Z.leb_le in Hline.
    rewrite Forall_fmap. rewrite Forall_forall in Hb |- *. intros item Hin. simpl.
    destruct (String.eqb_spec (productId item) (Product.id product)) as [Hid | Hid];
      [| by apply Hb].
    rewrite (findLine_unique _ _ _ _ Hnd Hfind Hin Hid).
    unfold lineInBounds; simpl. lia.
  - rewrite (addToCart_absent _ _ _ Hfind). apply Forall_app. split; [done |].
    apply Forall_singleton. unfold lineInBounds; simpl. lia.
Qed.

Lemma applyOp_bounds cart op :
  NoDup (productId <$> cart) → requestInRange cart op = true →
  Forall lineInBounds cart → Forall lineInBounds (applyOp cart op).
Proof.
  destruct op; simpl applyOp; intros Hnd Hreq Hb;
    [by apply addToCart_bounds | by apply updateQuantity_bounds
     | by apply removeFromCart_bounds].
Qed.

Lemma runOps_bounds ops cart :
  NoDup (productId <$> cart) → Forall lineInBounds cart →
  requestsInRange ops cart = true →
  NoDup (productId <$> runOps ops cart) ∧ Forall lineInBounds (runOps ops cart).
Proof.
  revert cart. induction ops as [|op ops IH]; intros cart Hnd Hb Hreq; [done |].
  simpl in Hreq. apply andb_true_iff in Hreq as [Hop Hrest].
  apply (IH (applyOp cart op));
    [by apply applyOp_ids | by apply applyOp_bounds | done].
Qed.

End CartLines.

(** *** C1: quantity bounds along sequences of operations *)

(** C1 at failing inputs: on the empty cart [addToCart] with stock 3 and
    quantity 5 appends a line with quantity 5 and stock 3, so the cart
    does not keep 1 <= quantity <= stock on every line, and with quantity
    0 it appends a line with quantity 0. Once the line exists, the same
    request is refused by the other branch of [addToCart] and by
    [updateQuantity]: the line keeps its quantity. *)
Lemma runOps_add_exceeds_stock :
  (runOps [OpAdd (Sample.star 3) 5] [] = [mkCartItem "p1" "Star" 500 None 5 3] ∧
   ¬ Forall lineInBounds (runOps [OpAdd (Sample.star 3) 5] [])) ∧
  (runOps [OpAdd (Sample.star 3) 0] [] = [mkCartItem "p1" "Star" 500 None 0 3] ∧
   ¬ Forall lineInBounds (runOps [OpAdd (Sample.star 3) 0] [])) ∧
  runOps [OpAdd (Sample.star 3) 2; OpAdd (Sample.star 3) 5] []
    = [mkCartItem "p1" "Star" 500 None 2 3] ∧
  runOps [OpAdd (Sample.star 3) 2; OpUpdate "p1" 5] []
    = [mkCartItem "p1" "Star" 500 None 2 3].
Proof.
  split_and!; try reflexivity.
  - intros H. apply Forall_cons in H as [[_ Hhi] _]. simpl in Hhi. lia.
  - intros H. apply Forall_cons in H as [[Hlo _] _]. simpl in Hlo. lia.
Qed.

(** Away from such requests the bound is kept: along a sequence of
    operations on the empty cart in which every [addToCart] request is in
    range, every line has 1 <= quantity <= the stock recorded on it. *)
Lemma runOps_in_range_bounds (ops : list CartOp) :
  requestsInRange ops [] = true →
  Forall lineInBounds (runOps ops []).
Proof.
  intros Hreq. apply runOps_bounds; [apply NoDup_nil_2 | apply Forall_nil_2 | done].
Qed.

(** *** C2: adding a product, and adding it again *)

(** C2, as stated, fails: with stock 3 and requested quantity 5 the new
    line on the empty cart has quantity 5, not min(5, 3) = 3. *)
Lemma addToCart_does_not_clamp :
  addToCart (Sample.star 3) 5 [] = [mkCartItem "p1" "Star" 500 None 5 3] ∧
  ¬ (∃ line, addToCart (Sample.star 3) 5 [] = [line] ∧
             quantity line = Z.min 5 (Product.stock (Sample.star 3))).
Proof.
  split; [reflexivity |]. intros (line & Heq & Hq).
  injection Heq as <-. simpl in Hq. lia.
Qed.

(** C2 (amended): when the product has no line and the requested
    quantity is between 1 and the snapshot's stock, [addToCart] appends
    exactly one line, made of the snapshot and of the requested quantity
    (which is then min(requested, stock), at least 1), and returns
    undefined: it does not throw and raises no signal. A second call for
    the same product id replaces the quantity of that line by the second
    request (it does not add to it) when the request is within the second
    snapshot's stock, and is refused, the cart staying as it was, when it
    exceeds it: nothing is clamped, and the cart still has exactly one
    line for the product. *)
Theorem addToCart_twice_replaces (cart : list CartItem) (p p2 : Product.t) (q q2 : Z) :
  findLine (Product.id p) cart = None →
  Product.id p2 = Product.id p →
  1 <= q <= Product.stock p →
  addToCart_call p q cart =
    (ReturnsUndefined,
     NewRef (cart ++ [newLine p (Z.max 1 (Z.min q (Product.stock p)))])) ∧
  addToCart p q cart = cart ++ [newLine p q] ∧
  addToCart p2 q2 (addToCart p q cart) =
    cart ++ [newLine p (if q2 >? Product.stock p2 then q else q2)].
Proof.
  intros Hnone Hid Hq. split_and!.
  - unfold addToCart_call, Updater.addToCart. rewrite Hnone.
    by replace (Z.max 1 (Z.min q (Product.stock p))) with q by lia.
  - by apply addToCart_absent.
  - rewrite (addToCart_absent _ _ _ Hnone).
    assert (Hfind : findLine (Product.id p2) (cart ++ [newLine p q]) = Some (newLine p q)).
    { rewrite Hid. by apply findLine_app_absent. }
    rewrite (addToCart_present _ _ _ _ Hfind).
    destruct (q2 >? Product.stock p2); [done |].
    rewrite fmap_app, Hid, fmap_other_lines by done.
    simpl. by rewrite String.eqb_refl.
Qed.

Lemma addToCart_twice_replaces_witness :
  addToCart_call (Sample.star 5) 2 [newLine (Sample.tree 4) 1] =
    (ReturnsUndefined, NewRef [newLine (Sample.tree 4) 1; newLine (Sample.star 5) 2]) ∧
  addToCart (Sample.star 5) 2 [newLine (Sample.tree 4) 1] =
    [newLine (Sample.tree 4) 1; newLine (Sample.star 5) 2] ∧
  addToCart (Sample.star 9) 4 (addToCart (Sample.star 5) 2 [newLine (Sample.tree 4) 1]) =
    [newLine (Sample.tree 4) 1; newLine (Sample.star 5) 4].
Proof.
  apply (addToCart_twice_replaces [newLine (Sample.tree 4) 1]
           (Sample.star 5) (Sample.star 9) 2 4); [reflexivity | reflexivity |].
  simpl. lia.
Defined.

(** *** C5: [updateQuantity] below 1 and above the stock *)

(** The update applied to the lines of one product leaves a cart
    unchanged when the only line of the product refuses the quantity. *)
Lemma updateQuantity_refusal (pid : string) (q : Z) (cart : list CartItem) (line : CartItem) :
  NoDup (productId <$> cart) → findLine pid cart = Some line → stock line < q →
  (λ item, if String.eqb (productId item) pid
           then (if q >? stock item then item else withQuantity item q)
           else item) <$> cart = cart.
Proof.
  intros Hnd Hfind Hq. rewrite <- (list_fmap_id cart) at 2.
  apply list_fmap_ext. intros i item Hi. simpl.
  destruct (String.eqb_spec (productId item) pid) as [Hid | Hid]; [| done].
  assert (item = line) as ->.
  { eapply findLine_unique; eauto. by eapply list_elem_of_lookup_2. }
  destruct (Z.gtb_spec q (stock line)); [done | lia].
Qed.

(** C5, as stated, fails on the signal: on the cart
    [{productId: "p1", quantity: 2, stock: 5}] the refused
    [updateQuantity("p1", 10)] returns undefined with the same lines, and
    so does the accepted [updateQuantity("p1", 2)]: nothing the caller
    gets tells a refusal from an accepted update. *)
Lemma updateQuantity_refusal_is_silent :
  updateQuantity_call "p1" 10 [Sample.line] = (ReturnsUndefined, NewRef [Sample.line]) ∧
  updateQuantity_call "p1" 10 [Sample.line] = updateQuantity_call "p1" 2 [Sample.line].
Proof. split; reflexivity. Qed.

(** C5 (amended): on a cart with one line per product that has a line for
    the product, [updateQuantity] with a quantity below 1 is
    [removeFromCart]; with a quantity above the stock stored on the line
    it leaves every line of the cart as it was (no clamping); otherwise it
    sets the quantity of that line. In each case the call returns
    undefined: a refusal raises no signal. *)
Theorem updateQuantity_cases (pid : string) (q : Z) (cart : list CartItem) (line : CartItem) :
  NoDup (productId <$> cart) →
  findLine pid cart = Some line →
  fst (updateQuantity_call pid q cart) = ReturnsUndefined ∧
  updateQuantity pid q cart =
    if q <? 1 then removeFromCart pid cart
    else if q >? stock line then cart
    else (λ item, if String.eqb (productId item) pid
                  then withQuantity item q else item) <$> cart.
Proof.
  intros Hnd Hfind. split; [done |].
  unfold updateQuantity, Updater.updateQuantity.
  destruct (Z.leb_spec q 0) as [Hle | Hgt], (Z.ltb_spec q 1) as [Hlt | Hge];
    try lia; [done |].
  simpl. destruct (Z.gtb_spec q (stock line)) as [Hq | Hq].
  - by apply (updateQuantity_refusal pid q cart line).
  - apply list_fmap_ext. intros i item Hi.
    destruct (String.eqb_spec (productId item) pid) as [Hid | Hid]; [| done].
    assert (item = line) as ->.
    { eapply findLine_unique; eauto. by eapply list_elem_of_lookup_2. }
    destruct (Z.gtb_spec q (stock line)); [lia | done].
Qed.

Lemma updateQuantity_cases_witness :
  (fst (updateQuantity_call "p1" 10 [Sample.line]) = ReturnsUndefined ∧
   updateQuantity "p1" 10 [Sample.line] = [Sample.line]) ∧
  (fst (updateQuantity_call "p1" 0 [Sample.line]) = ReturnsUndefined ∧
   updateQuantity "p1" 0 [Sample.line] = removeFromCart "p1" [Sample.line]).
Proof.
  split.
  - apply (updateQuantity_cases "p1" 10 [Sample.line] Sample.line);
      [apply NoDup_singleton | reflexivity].
  - apply (updateQuantity_cases "p1" 0 [Sample.line] Sample.line);
      [apply NoDup_singleton | reflexivity].
Defined.

(** *** C10: what a repeated [addToCart] leaves alone *)

(** C10: on a cart that has a line for the product, [addToCart] with any
    snapshot of the product and any quantity keeps the number and the
    order of the lines; every line keeps its product id, name, price,
    image and stock (the snapshot's are discarded); a line of another
    product is unchanged; and a line of the product gets the requested
    quantity, or keeps its own when the request exceeds the snapshot's
    stock. *)
Theorem addToCart_existing_frame (product : Product.t) (q : Z)
    (cart : list CartItem) (line : CartItem) :
  findLine (Product.id product) cart = Some line →
  Forall2 (λ old new,
             productId new = productId old ∧ name new = name old ∧
             priceCents new = priceCents old ∧ imageBase64 new = imageBase64 old ∧
             stock new = stock old ∧
             (productId old ≠ Product.id product → new = old) ∧
             (productId old = Product.id product →
              quantity new = if q >? Product.stock product then quantity old else q))
          cart (addToCart product q cart).
Proof.
  intros Hfind. rewrite (addToCart_present _ _ _ _ Hfind).
  destruct (q >? Product.stock product).
  - apply Forall_Forall2_diag, Forall_forall. intros item _. by repeat split.
  - apply Forall2_fmap_r, Forall_Forall2_diag, Forall_forall. intros item _.
    unfold compose. destruct (String.eqb_spec (productId item) (Product.id product));
      repeat split; simpl; try done; intros; congruence.
Qed.

Lemma addToCart_existing_frame_witness :
  Forall2 (λ old new,
             productId new = productId old ∧ name new = name old ∧
             priceCents new = priceCents old ∧ imageBase64 new = imageBase64 old ∧
             stock new = stock old ∧
             (productId old ≠ "p1" → new = old) ∧
             (productId old = "p1" → quantity new = 4))
          [newLine (Sample.tree 4) 1; Sample.line]
          (addToCart (Product.mk "p1" "Comet" 990 (Some "new") 8) 4
             [newLine (Sample.tree 4) 1; Sample.line]).
Proof.
  apply (addToCart_existing_frame (Product.mk "p1" "Comet" 990 (Some "new") 8) 4
           [newLine (Sample.tree 4) 1; Sample.line] Sample.line).
  reflexivity.
Defined.

(** ** The provider: identity switches and persistence *)

#[local] Arguments CartProvider.getCartKey : simpl never.

Section Provider.
Import CartProvider.
Implicit Types (st : CartProvider.t) (u : option string).

Lemma persistEffect_userId st : userId (persistEffect st) = userId st.
Proof. unfold persistEffect. by destruct (userId st) eqn:E. Qed.

Lemma persistEffect_items st : items (persistEffect st) = items st.
Proof. unfold persistEffect. by destruct (userId st). Qed.

Lemma persistEffect_persisted st :
  is_Some (userId st) → persisted (persistEffect st).
Proof.
  intros [a Ha]. unfold persisted, persistEffect. rewrite Ha. simpl.
  apply lookup_insert_eq.
Qed.

Lemma render_userId b1 b2 st : userId (render b1 b2 st) = userId st.
Proof.
  unfold render. destruct b1, b2; simpl;
    rewrite ?persistEffect_userId; simpl; by rewrite ?persistEffect_userId.
Qed.

(** Whenever the items have changed, the render ends with the persist
    effect writing the final items under the active key. *)
Lemma render_persisted b st :
  is_Some (userId st) → persisted (render b true st).
Proof.
  intros Hu. unfold render. destruct b; simpl.
  - apply persistEffect_persisted. simpl. by rewrite persistEffect_userId.
  - by apply persistEffect_persisted.
Qed.

(** After an identity change the items are those stored under the new
    key when the updater has flushed, or none. *)
Lemma setUserId_items u st :
  u ≠ userId st →
  items (setUserId u st) =
    default [] (match userId st with
                | Some _ => <[getCartKey (userId st) := items st]> (localStorage st)
                | None => localStorage st
                end !! getCartKey u).
Proof.
  intros Hne. unfold setUserId. rewrite bool_decide_true by done.
  unfold render. simpl. by rewrite persistEffect_items.
Qed.

Lemma setUserId_userId u st : userId (setUserId u st) = u.
Proof. unfold setUserId. by rewrite render_userId. Qed.

Lemma setItems_userId updater st : userId (setItems updater st) = userId st.
Proof.
  unfold setItems. destruct (updater (items st)); [done |].
  by rewrite render_userId.
Qed.

Lemma mutate_userId m st : userId (mutate m st) = userId st.
Proof. destruct m; apply setItems_userId. Qed.

Lemma setItems_persisted updater st :
  is_Some (userId st) → persisted st → persisted (setItems updater st).
Proof.
  intros Hu Hp. unfold setItems. destruct (updater (items st)); [done |].
  by apply render_persisted.
Qed.

(** In a session the snapshot stored for a logged-in identity always
    equals the items in memory. *)
Lemma session_persisted store actions :
  is_Some (userId (session store actions)) → persisted (session store actions).
Proof.
  unfold session.
  assert (Hgen : ∀ st, (is_Some (userId st) → persisted st) →
                       is_Some (userId (fold_left act actions st)) →
                       persisted (fold_left act actions st)).
  { induction actions as [|a actions IH]; intros st Hinv; [done |].
    simpl. apply IH. destruct a as [u | m]; simpl.
    - rewrite setUserId_userId. intros Hu. unfold setUserId.
      by apply render_persisted.
    - rewrite mutate_userId. intros Hu.
      destruct m; apply setItems_persisted; auto. }
  apply Hgen. unfold mount. rewrite render_userId. simpl. by intros [? ?].
Qed.

End Provider.

(** *** C3: [setUserId] called again with the active key *)

(** C3 at a concrete session: the store holds one line under ["cart_u1"];
    the first [setUserId("u1")] loads it, and the second one, with the
    same key, flushes it, empties the items, does not reload (the
    identity did not change) and lets the persist effect overwrite the
    snapshot with the empty cart. *)
Lemma setUserId_same_key_empties_cart :
  let st1 := CartProvider.session {["cart_u1" := [Sample.line]]}
               [CartProvider.SetUserId (Some "u1")] in
  let st2 := CartProvider.setUserId (Some "u1") st1 in
  (CartProvider.items st1 = [Sample.line] ∧
   CartProvider.localStorage st1 !! "cart_u1" = Some [Sample.line]) ∧
  (CartProvider.items st2 = [] ∧
   CartProvider.localStorage st2 !! "cart_u1" = Some []).
Proof. vm_compute. repeat split. Qed.

(** *** C4: switching away from an identity and back *)

(** C4, as stated, fails for the guest identity: a guest cart is never
    written to the store, so after guest -> "u1" -> guest the line that
    the guest had added is gone. *)
Lemma guest_cart_lost_on_round_trip :
  let st := CartProvider.session ∅
              [CartProvider.Mutate (CartProvider.AddToCart (Sample.star 5) 2)] in
  CartProvider.userId st = None ∧
  CartProvider.items st = [newLine (Sample.star 5) 2] ∧
  CartProvider.items
    (CartProvider.setUserId None (CartProvider.setUserId (Some "u1") st)) = [].
Proof. vm_compute. repeat split. Qed.

(** C4 (amended): for every logged-in identity A (a user id, not the
    guest), every identity B other than A and every cart held for A,
    switching from A to B and back to A restores A's items exactly. *)
Theorem setUserId_round_trip (st : CartProvider.t) (a : string) (B : option string) :
  CartProvider.userId st = Some a →
  B ≠ Some a →
  CartProvider.items (CartProvider.setUserId (Some a) (CartProvider.setUserId B st))
    = CartProvider.items st ∧
  CartProvider.userId (CartProvider.setUserId (Some a) (CartProvider.setUserId B st))
    = Some a.
Proof.
  intros Ha HB. split; [| apply setUserId_userId].
  rewrite setUserId_items by (by rewrite setUserId_userId).
  rewrite setUserId_userId.
  set (X := CartProvider.items st).
  set (flushed := <[CartProvider.getCartKey (Some a) := X]> (CartProvider.localStorage st)).
  assert (Hst1 : CartProvider.setUserId B st =
                 CartProvider.render true true (CartProvider.mk B [] flushed)).
  { unfold CartProvider.setUserId. rewrite Ha, bool_decide_true by done. done. }
  rewrite Hst1. unfold CartProvider.render, CartProvider.persistEffect,
    CartProvider.loadEffect. simpl.
  destruct B as [b|]; simpl.
  - destruct (decide (CartProvider.getCartKey (Some b) = CartProvider.getCartKey (Some a)))
      as [Heq | Hne].
    + rewrite Heq, !lookup_insert_eq. simpl. unfold flushed.
      by rewrite lookup_insert_eq.
    + rewrite !lookup_insert_ne by done. unfold flushed.
      by rewrite lookup_insert_eq.
  - unfold flushed. by rewrite lookup_insert_eq.
Qed.

Lemma setUserId_round_trip_witness :
  let st := CartProvider.session {["cart_u2" := [newLine (Sample.tree 4) 1]]}
              [CartProvider.SetUserId (Some "u1");
               CartProvider.Mutate (CartProvider.AddToCart (Sample.star 5) 2)] in
  CartProvider.items st = [newLine (Sample.star 5) 2] ∧
  CartProvider.items
    (CartProvider.setUserId (Some "u1") (CartProvider.setUserId (Some "u2") st))
    = CartProvider.items st ∧
  CartProvider.userId
    (CartProvider.setUserId (Some "u1") (CartProvider.setUserId (Some "u2") st))
    = Some "u1".
Proof.
  intros st. split; [reflexivity |].
  apply (setUserId_round_trip st "u1" (Some "u2")); [reflexivity | discriminate].
Defined.

(** *** C6: persistence after each mutation *)

(** C6, as stated, fails for the guest identity: after a guest's
    [addToCart] the items hold the new line and nothing is stored under
    the guest key. *)
Lemma guest_mutation_not_persisted :
  let st := CartProvider.addToCart (Sample.star 5) 2 (CartProvider.mount ∅) in
  CartProvider.userId st = None ∧
  CartProvider.items st = [newLine (Sample.star 5) 2] ∧
  CartProvider.localStorage st !! CartProvider.getCartKey None = None ∧
  ¬ CartProvider.persisted st.
Proof.
  vm_compute. repeat split. discriminate.
Qed.

(** C6 (amended): in every session, for every logged-in identity (not
    the guest) and every mutating operation ([addToCart],
    [updateQuantity], [removeFromCart], [clearCart]), once the effects of
    the resulting render have run the snapshot stored under the active
    identity's key equals the items in memory, and the identity is
    unchanged. *)
Theorem mutate_persisted (store : gmap string (list CartItem))
    (actions : list CartProvider.Action) (m : CartProvider.Mutation) :
  is_Some (CartProvider.userId (CartProvider.session store actions)) →
  CartProvider.persisted (CartProvider.mutate m (CartProvider.session store actions)) ∧
  CartProvider.userId (CartProvider.mutate m (CartProvider.session store actions))
    = CartProvider.userId (CartProvider.session store actions).
Proof.
  intros Hu. split; [| apply mutate_userId].
  destruct m; apply setItems_persisted; auto using session_persisted.
Qed.

Lemma mutate_persisted_witness :
  let store : gmap string (list CartItem) := {["cart_u1" := [Sample.line]]} in
  let actions := [CartProvider.SetUserId (Some "u1");
                  CartProvider.Mutate (CartProvider.AddToCart (Sample.tree 4) 1);
                  CartProvider.Mutate (CartProvider.AddToCart (Sample.star 1) 3)] in
  let m := CartProvider.UpdateQuantity "p1" 4 in
  CartProvider.items (CartProvider.mutate m (CartProvider.session store actions))
    = [mkCartItem "p1" "Star" 500 None 4 5; newLine (Sample.tree 4) 1] ∧
  CartProvider.persisted (CartProvider.mutate m (CartProvider.session store actions)) ∧
  CartProvider.userId (CartProvider.mutate m (CartProvider.session store actions))
    = CartProvider.userId (CartProvider.session store actions).
Proof.
  intros store actions m. split; [reflexivity |].
  apply (mutate_persisted store actions m). by exists "u1".
Defined.

(** ** The order page: payment *)

(** *** C7: paying an order that is already paid or cancelled *)

(** C7: when the cached order is paid or cancelled, [handlePay] returns
    at once: the page state, and with it the cached order, is unchanged
    and no request is sent, however the server would have answered. *)
Theorem handlePay_terminal_noop (translate : string → string → string)
    (payOrder : Settled (option Order.t)) (st : OrderDetails.t) (o : Order.t) :
  OrderDetails.order st = Some o →
  Order.status o = paid ∨ Order.status o = cancelled →
  OrderDetails.handlePay translate payOrder st = st ∧
  OrderDetails.order (OrderDetails.handlePay translate payOrder st) = Some o ∧
  OrderDetails.requests (OrderDetails.handlePay translate payOrder st)
    = OrderDetails.requests st.
Proof.
  intros Ho Hstatus.
  assert (Hnoop : OrderDetails.handlePay translate payOrder st = st).
  { unfold OrderDetails.handlePay. rewrite Ho. by destruct Hstatus as [-> | ->]. }
  by rewrite Hnoop.
Qed.

Lemma handlePay_terminal_noop_witness :
  OrderDetails.handlePay Sample.translate
    (Fulfilled (Some (Sample.order cancelled))) (Sample.orderPage paid)
    = Sample.orderPage paid ∧
  OrderDetails.order
    (OrderDetails.handlePay Sample.translate
       (Fulfilled (Some (Sample.order cancelled))) (Sample.orderPage paid))
    = Some (Sample.order paid) ∧
  OrderDetails.requests
    (OrderDetails.handlePay Sample.translate
       (Fulfilled (Some (Sample.order cancelled))) (Sample.orderPage paid))
    = OrderDetails.requests (Sample.orderPage paid).
Proof.
  apply (handlePay_terminal_noop Sample.translate
           (Fulfilled (Some (Sample.order cancelled)))
           (Sample.orderPage paid) (Sample.order paid));
    [reflexivity | left; reflexivity].
Defined.

(** *** C8: a payment whose outcome is not known *)

(** C8, as stated, fails: when the pay request of a created order dies
    on the network (the message of the error is ["Failed to fetch"]), no
    timer is set, so no re-fetch follows, and the page shows the error.
    When the message is ["Order not found"] the re-fetch is scheduled and
    brings back the paid order, but the error set by [handlePay] is still
    there and the page still shows the error screen. *)
Lemma handlePay_timeout_no_refetch :
  (OrderDetails.timers
     (OrderDetails.handlePay Sample.translate
        (Rejected (ErrorObject "Failed to fetch")) (Sample.orderPage created)) = [] ∧
   OrderDetails.view
     (OrderDetails.handlePay Sample.translate
        (Rejected (ErrorObject "Failed to fetch")) (Sample.orderPage created))
     = OrderDetails.ErrorView (Some "Failed to fetch")) ∧
  (let st2 := OrderDetails.fireTimer (Some "o1") (Fulfilled (Some (Sample.order paid)))
                (OrderDetails.handlePay Sample.translate
                   (Rejected (ErrorObject "Order not found")) (Sample.orderPage created)) in
   OrderDetails.order st2 = Some (Sample.order paid) ∧
   OrderDetails.view st2 = OrderDetails.ErrorView (Some "Order not found")).
Proof. vm_compute. repeat split. Qed.

(** C8 (amended): for every pay attempt on an order cached as created
    that fails, one pay request has been sent, the order stays as cached,
    and the error message is stored and is what the page shows, on its
    error screen, once the page is not loading and the message is not
    empty. Exactly when the message contains ["not found"] or ["404"],
    one re-fetch of the order is scheduled 1000 ms later (none for any
    other failure, a network time-out included); when that re-fetch
    succeeds, the cached order becomes the order the server returned and
    no timer is left. *)
Theorem handlePay_failure (translate : string → string → string)
    (rid : string) (err : Thrown) (st : OrderDetails.t) (o : Order.t)
    (fetched : option Order.t) :
  OrderDetails.order st = Some o →
  Order.status o = created →
  OrderDetails.timers st = [] →
  rid ≠ "" →
  let message :=
    messageOr (translate "order.paymentError" "Failed to process payment") err in
  let st1 := OrderDetails.handlePay translate (Rejected err) st in
  let st2 := OrderDetails.fireTimer (Some rid) (Fulfilled fetched) st1 in
  (OrderDetails.error st1 = Some message ∧
   OrderDetails.view st1 =
     (if OrderDetails.loading st then OrderDetails.LoadingView
      else if String.eqb message "" then OrderDetails.OrderView o
      else OrderDetails.ErrorView (Some message)) ∧
   OrderDetails.order st1 = Some o ∧
   OrderDetails.requests st1 = OrderDetails.requests st ++ [PayOrder (Order.id o)]) ∧
  OrderDetails.timers st1 =
    (if includes message "not found" || includes message "404"
     then [(1000, LoadOrder)] else []) ∧
  (if includes message "not found" || includes message "404"
   then OrderDetails.order st2 = fetched ∧
        OrderDetails.timers st2 = [] ∧
        OrderDetails.requests st2 =
          OrderDetails.requests st ++ [PayOrder (Order.id o); GetOrder rid]
   else st2 = st1).
Proof.
  intros Ho Hstatus Htimers Hrid message st1 st2.
  assert (Hst1 : st1 =
    OrderDetails.mk (Some o) (OrderDetails.loading st) (Some message) false
      (OrderDetails.requests st ++ [PayOrder (Order.id o)])
      (if includes message "not found" || includes message "404"
       then [(1000, LoadOrder)] else [])).
  { unfold st1, OrderDetails.handlePay. rewrite Ho, Hstatus, Htimers. done. }
  assert (Hfalsy : String.eqb rid "" = false) by by apply String.eqb_neq.
  subst st2. rewrite Hst1. split_and!; try done.
  unfold OrderDetails.fireTimer, OrderDetails.loadOrder.
  destruct (includes message "not found" || includes message "404"); simpl; [| done].
  rewrite Hfalsy. simpl. by rewrite <- app_assoc.
Qed.

Lemma handlePay_failure_witness :
  let st1 := OrderDetails.handlePay Sample.translate
               (Rejected (ErrorObject "Order not found")) (Sample.orderPage created) in
  let st2 := OrderDetails.fireTimer (Some "o1") (Fulfilled (Some (Sample.order paid))) st1 in
  (OrderDetails.error st1 = Some "Order not found" ∧
   OrderDetails.view st1 = OrderDetails.ErrorView (Some "Order not found") ∧
   OrderDetails.order st1 = Some (Sample.order created) ∧
   OrderDetails.requests st1 = [PayOrder "o1"]) ∧
  OrderDetails.timers st1 = [(1000, LoadOrder)] ∧
  (OrderDetails.order st2 = Some (Sample.order paid) ∧
   OrderDetails.timers st2 = [] ∧
   OrderDetails.requests st2 = [PayOrder "o1"; GetOrder "o1"]).
Proof.
  apply (handlePay_failure Sample.translate "o1" (ErrorObject "Order not found")
           (Sample.orderPage created) (Sample.order created)
           (Some (Sample.order paid)));
    [reflexivity | reflexivity | reflexivity | discriminate].
Defined.

(** ** The cart page: checkout *)

(** *** C9: submitting an empty cart, and rejected submissions *)

(** C9, as stated, fails for a visitor who is not logged in: with an
    empty cart [handleCheckout] sends the visitor to the login page and
    sets no empty-cart error. *)
Lemma handleCheckout_guest_empty_cart :
  let st := Cart.handleCheckout Sample.translate "order is null" false
              (Fulfilled (Some "o1")) (Sample.cartPage []) in
  Cart.error st = None ∧
  Cart.navigated st = ["/login"] ∧
  Cart.error st ≠ Some (Sample.translate "cart.emptyCart" "Your cart is empty").
Proof. vm_compute. by repeat split. Qed.

(** C9 (amended): for a logged-in user, [handleCheckout] on a cart with
    zero lines sets the empty-cart error and changes nothing else: no
    request is sent and no navigation happens; in particular this is what
    [clearCart] followed by [handleCheckout] does. A visitor who is not
    logged in is sent to the login page instead, whatever the cart: the
    lines, the error and the requests stay as they were. Whoever submits,
    no request is sent for an empty cart, and a submission that the
    server or the network rejects leaves every line of the cart as it
    was. *)
Theorem handleCheckout_empty_or_rejected (translate : string → string → string)
    (nullOrderMessage : string) (isAuthenticated : bool)
    (createOrder : Settled (option string)) (err : Thrown) (st : Cart.t)
    (checkingOut : bool) (error : option string) (navigated : list string)
    (requests : list ApiRequest) :
  let emptyCartError := Some (translate "cart.emptyCart" "Your cart is empty") in
  let submit := Cart.handleCheckout translate nullOrderMessage in
  submit true createOrder (Cart.mk [] checkingOut error navigated requests) =
    Cart.mk [] checkingOut emptyCartError navigated requests ∧
  submit false createOrder st =
    Cart.mk (Cart.items st) (Cart.checkingOut st) (Cart.error st)
      (Cart.navigated st ++ ["/login"]) (Cart.requests st) ∧
  Cart.requests
    (submit isAuthenticated createOrder (Cart.mk [] checkingOut error navigated requests))
    = requests ∧
  submit true createOrder (Cart.clear st) =
    Cart.mk [] (Cart.checkingOut st) emptyCartError (Cart.navigated st) (Cart.requests st) ∧
  Cart.items (submit isAuthenticated (Rejected err) st) = Cart.items st.
Proof.
  intros emptyCartError submit. split_and!.
  - done.
  - done.
  - by destruct isAuthenticated.
  - done.
  - unfold submit, Cart.handleCheckout.
    destruct isAuthenticated; simpl; [| done].
    by destruct (length (Cart.items st) =? 0)%nat.
Qed.

(** * Further properties of the cart, the provider and the pages *)

(** ** Lines, totals and the operations of the context *)

Section CartTotals.
Implicit Types (cart : list CartItem) (item line : CartItem) (pid : string) (q : Z).

Lemma fold_left_shift (f : CartItem → Z) cart (a : Z) :
  fold_left (λ total item, total + f item) cart a =
  a + fold_left (λ total item, total + f item) cart 0.
Proof.
  revert a. induction cart as [|x cart IH]; intros a; simpl; [lia |].
  rewrite (IH (a + f x)), (IH (0 + f x)). lia.
Qed.

Lemma getTotalItems_cons item cart :
  getTotalItems (item :: cart) = quantity item + getTotalItems cart.
Proof. unfold getTotalItems. simpl. by rewrite fold_left_shift. Qed.

Lemma getTotalPrice_cons item cart :
  getTotalPrice (item :: cart) = priceCents item * quantity item + getTotalPrice cart.
Proof.
  unfold getTotalPrice. simpl.
  by rewrite (fold_left_shift (λ x, priceCents x * quantity x)).
Qed.

Lemma getTotalItems_app cart1 cart2 :
  getTotalItems (cart1 ++ cart2) = getTotalItems cart1 + getTotalItems cart2.
Proof.
  induction cart1 as [|x cart1 IH]; [done |].
  simpl. rewrite !getTotalItems_cons, IH. lia.
Qed.

Lemma getTotalPrice_app cart1 cart2 :
  getTotalPrice (cart1 ++ cart2) = getTotalPrice cart1 + getTotalPrice cart2.
Proof.
  induction cart1 as [|x cart1 IH]; [done |].
  simpl. rewrite !getTotalPrice_cons, IH. lia.
Qed.

Lemma filter_other_lines pid cart :
  findLine pid cart = None → filter (λ item, productId item ≠ pid) cart = cart.
Proof.
  unfold findLine. induction cart as [|x cart IH]; [done |]. simpl.
  destruct (String.eqb_spec (productId x) pid) as [Hid | Hid]; [done |].
  intros H. rewrite filter_cons_True by done. f_equal. by apply IH.
Qed.

Lemma findLine_filter pid cart :
  findLine pid (filter (λ item, productId item ≠ pid) cart) = None.
Proof.
  apply findLine_None. intros (x & Hid & Hx)%list_elem_of_fmap.
  by apply list_elem_of_filter in Hx as [Hne _].
Qed.

Lemma findLine_filter_ne pid pid' cart :
  pid' ≠ pid →
  findLine pid' (filter (λ item, productId item ≠ pid) cart) = findLine pid' cart.
Proof.
  intros Hne. unfold findLine. induction cart as [|x cart IH]; [done |].
  rewrite filter_cons. simpl. case_decide as Hx; simpl.
  - by rewrite IH.
  - destruct (String.eqb_spec (productId x) pid'); [congruence | done].
Qed.

(** With one line per product, the cart splits around the line found. *)
Lemma findLine_split pid cart line :
  NoDup (productId <$> cart) → findLine pid cart = Some line →
  ∃ before after, cart = before ++ line :: after ∧
    findLine pid before = None ∧ findLine pid after = None.
Proof.
  unfold findLine. induction cart as [|x cart IH]; [done |]. simpl.
  rewrite NoDup_cons. intros [Hx Hnd] Hfind.
  destruct (String.eqb_spec (productId x) pid) as [Hid | Hid].
  - injection Hfind as <-. exists [], cart. split_and!; [done | done |].
    apply findLine_None. by rewrite <- Hid.
  - destruct (IH Hnd Hfind) as (before & after & -> & Hb & Ha).
    exists (x :: before), after. split_and!; [done | | done].
    simpl. by destruct (String.eqb_spec (productId x) pid).
Qed.

Lemma updateQuantity_accepted pid q cart line :
  NoDup (productId <$> cart) → findLine pid cart = Some line →
  1 <= q <= stock line →
  ∃ before after, cart = before ++ line :: after ∧
    updateQuantity pid q cart = before ++ withQuantity line q :: after.
Proof.
  intros Hnd Hfind Hq.
  destruct (findLine_Some _ _ _ Hfind) as [_ Hid].
  destruct (findLine_split _ _ _ Hnd Hfind) as (before & after & -> & Hb & Ha).
  exists before, after. split; [done |].
  unfold updateQuantity, Updater.updateQuantity.
  destruct (Z.leb_spec q 0); [lia |]. simpl.
  rewrite fmap_app, fmap_cons.
  rewrite (fmap_other_lines (λ item, if q >? stock item then item else withQuantity item q))
    by done.
  rewrite (fmap_other_lines (λ item, if q >? stock item then item else withQuantity item q)
             pid after) by done.
  apply String.eqb_eq in Hid. rewrite Hid.
  by destruct (Z.gtb_spec q (stock line)); [lia |].
Qed.

Lemma removeFromCart_found pid cart line :
  NoDup (productId <$> cart) → findLine pid cart = Some line →
  ∃ before after, cart = before ++ line :: after ∧
    removeFromCart pid cart = before ++ after.
Proof.
  intros Hnd Hfind.
  destruct (findLine_Some _ _ _ Hfind) as [_ Hid].
  destruct (findLine_split _ _ _ Hnd Hfind) as (before & after & -> & Hb & Ha).
  exists before, after. split; [done |].
  unfold removeFromCart. simpl.
  rewrite filter_app, filter_cons_False by (intros Hne; by apply Hne).
  by rewrite !filter_other_lines.
Qed.

End CartTotals.

(** X1: after [removeFromCart] the cart has no line of the product, the
    line found for any other product is the one found before, and
    removing again changes nothing. *)
Theorem removeFromCart_removes (pid pid' : string) (cart : list CartItem) :
  pid' ≠ pid →
  findLine pid (removeFromCart pid cart) = None ∧
  findLine pid' (removeFromCart pid cart) = findLine pid' cart ∧
  removeFromCart pid (removeFromCart pid cart) = removeFromCart pid cart.
Proof.
  intros Hne. unfold removeFromCart. simpl. split_and!.
  - apply findLine_filter.
  - by apply findLine_filter_ne.
  - apply filter_other_lines, findLine_filter.
Qed.

Lemma removeFromCart_removes_witness :
  findLine "p1" (removeFromCart "p1" [Sample.line; newLine (Sample.tree 4) 1]) = None ∧
  findLine "p2" (removeFromCart "p1" [Sample.line; newLine (Sample.tree 4) 1]) =
    findLine "p2" [Sample.line; newLine (Sample.tree 4) 1] ∧
  removeFromCart "p1" (removeFromCart "p1" [Sample.line; newLine (Sample.tree 4) 1]) =
    removeFromCart "p1" [Sample.line; newLine (Sample.tree 4) 1].
Proof.
  apply (removeFromCart_removes "p1" "p2" [Sample.line; newLine (Sample.tree 4) 1]).
  discriminate.
Defined.

(** X2: for a product that has no line, [removeFromCart] and
    [updateQuantity] (with any quantity) leave the cart as it is:
    nothing is removed and [updateQuantity] never creates a line. *)
Theorem absent_product_untouched (pid : string) (q : Z) (cart : list CartItem) :
  findLine pid cart = None →
  removeFromCart pid cart = cart ∧ updateQuantity pid q cart = cart.
Proof.
  intros Hnone.
  assert (Hrm : removeFromCart pid cart = cart).
  { unfold removeFromCart. simpl. by apply filter_other_lines. }
  split; [done |].
  unfold updateQuantity, Updater.updateQuantity. destruct (q <=? 0); [done |].
  simpl. by apply (fmap_other_lines (λ item, if q >? stock item then item
                                              else withQuantity item q)).
Qed.

Lemma absent_product_untouched_witness :
  removeFromCart "p9" [Sample.line] = [Sample.line] ∧
  updateQuantity "p9" 3 [Sample.line] = [Sample.line].
Proof.
  apply (absent_product_untouched "p9" 3 [Sample.line]). reflexivity.
Defined.

(** X3: whatever the operations and their arguments, a cart built from
    the empty cart has at most one line per product. *)
Theorem runOps_unique_ids (ops : list CartOp) :
  NoDup (productId <$> runOps ops []).
Proof.
  unfold runOps.
  assert (Hgen : ∀ cart, NoDup (productId <$> cart) →
                         NoDup (productId <$> fold_left applyOp ops cart)).
  { induction ops as [|op ops IH]; intros cart Hnd; [done |].
    simpl. by apply IH, applyOp_ids. }
  apply Hgen, NoDup_nil_2.
Qed.

(** X4: [updateQuantity] and [removeFromCart] cannot break the bound
    1 <= quantity <= stock, whatever quantity is asked for. *)
Theorem update_remove_keep_bounds (pid : string) (q : Z) (cart : list CartItem) :
  Forall lineInBounds cart →
  Forall lineInBounds (updateQuantity pid q cart) ∧
  Forall lineInBounds (removeFromCart pid cart).
Proof.
  intros Hb. split; [by apply updateQuantity_bounds | by apply removeFromCart_bounds].
Qed.

Lemma update_remove_keep_bounds_witness :
  Forall lineInBounds (updateQuantity "p1" 77 [Sample.line]) ∧
  Forall lineInBounds (removeFromCart "p1" [Sample.line]).
Proof.
  apply (update_remove_keep_bounds "p1" 77 [Sample.line]).
  apply Forall_singleton. unfold lineInBounds. simpl. lia.
Defined.

(** X5: on a cart whose lines respect the bound, the number of items is
    at least the number of lines, so it is zero exactly for the empty
    cart. *)
Theorem getTotalItems_counts_lines (cart : list CartItem) :
  Forall lineInBounds cart →
  Z.of_nat (length cart) <= getTotalItems cart ∧
  (getTotalItems cart = 0 ↔ cart = []).
Proof.
  intros Hb.
  assert (Hlen : Z.of_nat (length cart) <= getTotalItems cart).
  { induction Hb as [|x cart [Hx _] _ IH]; [done |].
    rewrite getTotalItems_cons. simpl length. lia. }
  split; [done |]. split.
  - destruct cart; [done |]. simpl length in Hlen. lia.
  - by intros ->.
Qed.

Lemma getTotalItems_counts_lines_witness :
  Z.of_nat (length [Sample.line]) <= getTotalItems [Sample.line] ∧
  (getTotalItems [Sample.line] = 0 ↔ [Sample.line] = []).
Proof.
  apply (getTotalItems_counts_lines [Sample.line]).
  apply Forall_singleton. unfold lineInBounds. simpl. lia.
Defined.

(** The sums of integers behind the totals. *)
Lemma addToCart_new_sums (product : Product.t) (q : Z) (cart : list CartItem) :
  findLine (Product.id product) cart = None →
  getTotalItems (addToCart product q cart) = getTotalItems cart + q ∧
  getTotalPrice (addToCart product q cart)
    = getTotalPrice cart + Product.priceCents product * q.
Proof.
  intros Hnone. rewrite (addToCart_absent _ _ _ Hnone).
  rewrite getTotalItems_app, getTotalPrice_app.
  rewrite getTotalItems_cons, getTotalPrice_cons. simpl.
  unfold getTotalItems, getTotalPrice. simpl. lia.
Qed.

Lemma updateQuantity_sums (pid : string) (q : Z) (cart : list CartItem)
    (line : CartItem) :
  NoDup (productId <$> cart) →
  findLine pid cart = Some line →
  1 <= q <= stock line →
  getTotalItems (updateQuantity pid q cart) = getTotalItems cart - quantity line + q ∧
  getTotalPrice (updateQuantity pid q cart)
    = getTotalPrice cart + priceCents line * (q - quantity line).
Proof.
  intros Hnd Hfind Hq.
  destruct (updateQuantity_accepted _ _ _ _ Hnd Hfind Hq)
    as (before & after & -> & ->).
  rewrite !getTotalItems_app, !getTotalPrice_app.
  rewrite !getTotalItems_cons, !getTotalPrice_cons. simpl. lia.
Qed.

Lemma removeFromCart_sums (pid : string) (cart : list CartItem) (line : CartItem) :
  NoDup (productId <$> cart) →
  findLine pid cart = Some line →
  getTotalItems (removeFromCart pid cart) = getTotalItems cart - quantity line ∧
  getTotalPrice (removeFromCart pid cart)
    = getTotalPrice cart - priceCents line * quantity line ∧
  S (length (removeFromCart pid cart)) = length cart.
Proof.
  intros Hnd Hfind.
  destruct (removeFromCart_found _ _ _ Hnd Hfind) as (before & after & -> & ->).
  rewrite !getTotalItems_app, !getTotalPrice_app.
  rewrite !getTotalItems_cons, !getTotalPrice_cons, !length_app. simpl.
  split_and!; lia.
Qed.

(** *** The totals the code computes, within the safe integers *)

Section SafeTotals.
Implicit Types (cart : list CartItem) (item : CartItem).

Lemma SafeInteger_add_Some (a b c : Z) :
  SafeInteger.add a b = Some c → c = a + b.
Proof.
  unfold SafeInteger.add, SafeInteger.exact.
  destruct (_ && _); [| done]. destruct (SafeInteger.isSafeInteger (a + b)); [| done].
  by intros [= <-].
Qed.

Lemma SafeInteger_mul_Some (a b c : Z) :
  SafeInteger.mul a b = Some c → c = a * b.
Proof.
  unfold SafeInteger.mul, SafeInteger.exact.
  destruct (_ && _); [| done]. destruct (SafeInteger.isSafeInteger (a * b)); [| done].
  by intros [= <-].
Qed.

Lemma priceStep_None cart : fold_left SafeInteger.priceStep cart None = None.
Proof. induction cart as [|x cart IH]; [done | by simpl]. Qed.

Lemma itemsStep_None cart : fold_left SafeInteger.itemsStep cart None = None.
Proof. induction cart as [|x cart IH]; [done | by simpl]. Qed.

Lemma priceStep_exact cart (a v : Z) :
  fold_left SafeInteger.priceStep cart (Some a) = Some v →
  v = a + getTotalPrice cart.
Proof.
  revert a. induction cart as [|x cart IH]; intros a; simpl.
  - intros [= <-]. unfold getTotalPrice. simpl. lia.
  - destruct (SafeInteger.mul (priceCents x) (quantity x)) as [linePrice|] eqn:Hmul;
      [| by rewrite priceStep_None].
    destruct (SafeInteger.add a linePrice) as [t|] eqn:Hadd;
      [| by rewrite priceStep_None].
    intros Hv. apply IH in Hv. apply SafeInteger_mul_Some in Hmul.
    apply SafeInteger_add_Some in Hadd. rewrite getTotalPrice_cons. lia.
Qed.

Lemma itemsStep_exact cart (a v : Z) :
  fold_left SafeInteger.itemsStep cart (Some a) = Some v →
  v = a + getTotalItems cart.
Proof.
  revert a. induction cart as [|x cart IH]; intros a; simpl.
  - intros [= <-]. unfold getTotalItems. simpl. lia.
  - destruct (SafeInteger.add a (quantity x)) as [t|] eqn:Hadd;
      [| by rewrite itemsStep_None].
    intros Hv. apply IH in Hv. apply SafeInteger_add_Some in Hadd.
    rewrite getTotalItems_cons. lia.
Qed.

(** A total that the code computes exactly is the sum of integers. *)
Lemma SafeInteger_getTotalPrice_exact cart (v : Z) :
  SafeInteger.getTotalPrice cart = Some v → v = getTotalPrice cart.
Proof. intros H. by apply priceStep_exact in H. Qed.

Lemma SafeInteger_getTotalItems_exact cart (n : Z) :
  SafeInteger.getTotalItems cart = Some n → n = getTotalItems cart.
Proof. intros H. by apply itemsStep_exact in H. Qed.

(** When the totals of a cart with one more line are exact, so are the
    totals of the cart. *)
Lemma SafeInteger_getTotalPrice_snoc cart item (v : Z) :
  SafeInteger.getTotalPrice (cart ++ [item]) = Some v →
  ∃ v0, SafeInteger.getTotalPrice cart = Some v0.
Proof.
  unfold SafeInteger.getTotalPrice. rewrite fold_left_app. simpl.
  destruct (fold_left SafeInteger.priceStep cart (Some 0)); [by eauto | done].
Qed.

Lemma SafeInteger_getTotalItems_snoc cart item (n : Z) :
  SafeInteger.getTotalItems (cart ++ [item]) = Some n →
  ∃ n0, SafeInteger.getTotalItems cart = Some n0.
Proof.
  unfold SafeInteger.getTotalItems. rewrite fold_left_app. simpl.
  destruct (fold_left SafeInteger.itemsStep cart (Some 0)); [by eauto | done].
Qed.

End SafeTotals.

(** X6: when the totals of the cart after [addToCart] of a product that
    had no line are computed exactly (every value met is a safe integer),
    the totals of the cart before were exact too, the number of items has
    risen by the quantity and the total price by the price times the
    quantity. *)
Theorem addToCart_new_totals (product : Product.t) (q n v : Z) (cart : list CartItem) :
  findLine (Product.id product) cart = None →
  SafeInteger.getTotalItems (addToCart product q cart) = Some n →
  SafeInteger.getTotalPrice (addToCart product q cart) = Some v →
  ∃ n0 v0,
    SafeInteger.getTotalItems cart = Some n0 ∧
    SafeInteger.getTotalPrice cart = Some v0 ∧
    n = n0 + q ∧
    v = v0 + Product.priceCents product * q.
Proof.
  intros Hnone Hn Hv.
  destruct (addToCart_new_sums product q cart Hnone) as [Hitems Hprice].
  apply SafeInteger_getTotalItems_exact in Hn as Hn'.
  apply SafeInteger_getTotalPrice_exact in Hv as Hv'.
  rewrite (addToCart_absent _ _ _ Hnone) in Hn, Hv.
  destruct (SafeInteger_getTotalItems_snoc _ _ _ Hn) as [n0 Hn0].
  destruct (SafeInteger_getTotalPrice_snoc _ _ _ Hv) as [v0 Hv0].
  exists n0, v0. split_and!; [done | done | |].
  - apply SafeInteger_getTotalItems_exact in Hn0. lia.
  - apply SafeInteger_getTotalPrice_exact in Hv0. lia.
Qed.

Lemma addToCart_new_totals_witness :
  ∃ n0 v0,
    SafeInteger.getTotalItems [Sample.line] = Some n0 ∧
    SafeInteger.getTotalPrice [Sample.line] = Some v0 ∧
    5 = n0 + 3 ∧
    13600 = v0 + Product.priceCents (Sample.tree 4) * 3.
Proof.
  apply (addToCart_new_totals (Sample.tree 4) 3 5 13600 [Sample.line]); reflexivity.
Defined.

(** X7: on a cart with one line per product, when the totals before and
    after an accepted [updateQuantity] (1 <= quantity <= the line's
    stock) are computed exactly, the number of items has changed by the
    difference of the quantities and the total price by that difference
    times the line's price. *)
Theorem updateQuantity_totals (pid : string) (q n0 v0 n v : Z) (cart : list CartItem)
    (line : CartItem) :
  NoDup (productId <$> cart) →
  findLine pid cart = Some line →
  1 <= q <= stock line →
  SafeInteger.getTotalItems cart = Some n0 →
  SafeInteger.getTotalPrice cart = Some v0 →
  SafeInteger.getTotalItems (updateQuantity pid q cart) = Some n →
  SafeInteger.getTotalPrice (updateQuantity pid q cart) = Some v →
  n = n0 - quantity line + q ∧
  v = v0 + priceCents line * (q - quantity line).
Proof.
  intros Hnd Hfind Hq Hn0 Hv0 Hn Hv.
  destruct (updateQuantity_sums pid q cart line Hnd Hfind Hq) as [Hitems Hprice].
  apply SafeInteger_getTotalItems_exact in Hn0, Hn.
  apply SafeInteger_getTotalPrice_exact in Hv0, Hv. lia.
Qed.

Lemma updateQuantity_totals_witness :
  SafeInteger.getTotalPrice
    (updateQuantity "p1" 5 [newLine (Sample.tree 4) 1; Sample.line]) = Some 6700 ∧
  (6 = 3 - quantity Sample.line + 5 ∧
   6700 = 5200 + priceCents Sample.line * (5 - quantity Sample.line)).
Proof.
  split; [reflexivity |].
  apply (updateQuantity_totals "p1" 5 3 5200 6 6700
           [newLine (Sample.tree 4) 1; Sample.line] Sample.line).
  - apply NoDup_cons. split; [| apply NoDup_singleton].
    intros Hin. apply list_elem_of_singleton in Hin. discriminate.
  - reflexivity.
  - simpl. lia.
  - reflexivity.
  - reflexivity.
  - reflexivity.
  - reflexivity.
Defined.

(** X8: on a cart with one line per product, removing a product that has
    a line leaves one line less, and when the totals before and after
    are computed exactly, the number of items has gone down by the line's
    quantity and the total price by the line's price times its
    quantity. *)
Theorem removeFromCart_totals (pid : string) (n0 v0 n v : Z) (cart : list CartItem)
    (line : CartItem) :
  NoDup (productId <$> cart) →
  findLine pid cart = Some line →
  SafeInteger.getTotalItems cart = Some n0 →
  SafeInteger.getTotalPrice cart = Some v0 →
  SafeInteger.getTotalItems (removeFromCart pid cart) = Some n →
  SafeInteger.getTotalPrice (removeFromCart pid cart) = Some v →
  n = n0 - quantity line ∧
  v = v0 - priceCents line * quantity line ∧
  S (length (removeFromCart pid cart)) = length cart.
Proof.
  intros Hnd Hfind Hn0 Hv0 Hn Hv.
  destruct (removeFromCart_sums pid cart line Hnd Hfind) as (Hitems & Hprice & Hlen).
  apply SafeInteger_getTotalItems_exact in Hn0, Hn.
  apply SafeInteger_getTotalPrice_exact in Hv0, Hv. split_and!; [lia | lia | done].
Qed.

Lemma removeFromCart_totals_witness :
  1 = 3 - quantity Sample.line ∧
  4200 = 5200 - priceCents Sample.line * quantity Sample.line ∧
  S (length (removeFromCart "p1" [newLine (Sample.tree 4) 1; Sample.line]))
    = length [newLine (Sample.tree 4) 1; Sample.line].
Proof.
  apply (removeFromCart_totals "p1" 3 5200 1 4200
           [newLine (Sample.tree 4) 1; Sample.line] Sample.line).
  - apply NoDup_cons. split; [| apply NoDup_singleton].
    intros Hin. apply list_elem_of_singleton in Hin. discriminate.
  - reflexivity.
  - reflexivity.
  - reflexivity.
  - reflexivity.
  - reflexivity.
Defined.

(** ** The provider and the store *)

Section ProviderStore.
Import CartProvider.
Implicit Types (st : CartProvider.t) (u : option string) (k : string).

Lemma persistEffect_lookup_ne st k :
  k ≠ getCartKey (userId st) →
  localStorage (persistEffect st) !! k = localStorage st !! k.
Proof.
  intros Hk. unfold persistEffect. destruct (userId st) eqn:Hu; [| done].
  simpl. by rewrite lookup_insert_ne.
Qed.

Lemma persistEffect_guest st :
  userId st = None → persistEffect st = st.
Proof. intros Hu. unfold persistEffect. by rewrite Hu. Qed.

Lemma setItems_items updater st :
  items (setItems updater st) = commitUpdate (items st) (updater (items st)).
Proof.
  unfold setItems. destruct (updater (items st)); [done |].
  unfold render. simpl. by rewrite persistEffect_items.
Qed.

Lemma setItems_lookup_ne updater st k :
  k ≠ getCartKey (userId st) →
  localStorage (setItems updater st) !! k = localStorage st !! k.
Proof.
  intros Hk. unfold setItems. destruct (updater (items st)); [done |].
  unfold render. simpl. by rewrite persistEffect_lookup_ne.
Qed.

Lemma setItems_guest updater st :
  userId st = None → localStorage (setItems updater st) = localStorage st.
Proof.
  intros Hu. unfold setItems. destruct (updater (items st)); [done |].
  unfold render. simpl. by rewrite persistEffect_guest.
Qed.

Lemma setUserId_lookup u st k :
  localStorage (setUserId u st) !! k =
    if decide (k = getCartKey u ∧ is_Some u) then Some (items (setUserId u st))
    else if decide (k = getCartKey (userId st) ∧ is_Some (userId st))
         then Some (items st)
         else localStorage st !! k.
Proof.
  unfold setUserId, render, persistEffect, loadEffect.
  destruct (bool_decide (u ≠ userId st)), u as [b|], (userId st) as [a|] eqn:Ha;
    simpl; repeat case_decide; destruct_and?; simplify_eq.
  all: rewrite ?lookup_insert_eq; try done.
  all: try (by match goal with H : is_Some None |- _ => destruct H as [? ?] end).
  all: repeat match goal with
       | H : ¬ (?k' = ?key ∧ is_Some (Some _)) |- _ =>
           assert (key ≠ k') by (intros ?; apply H; split; [done | eauto]);
           clear H
       end.
  all: rewrite ?lookup_insert_ne by done; by rewrite ?lookup_insert_eq.
Qed.

End ProviderStore.

(** X9: a user id shares the storage key of the guest exactly when it is
    the empty string or the string "guest". *)
Theorem getCartKey_guest_collision (u : string) :
  CartProvider.getCartKey (Some u) = CartProvider.getCartKey None ↔
  u = "" ∨ u = "guest".
Proof.
  unfold CartProvider.getCartKey.
  destruct (String.eqb_spec u "") as [-> | Hne].
  - split; [by left | done].
  - split.
    + intros H. right. cbn in H. by injection H.
    + intros [? | ->]; done.
Qed.

(** X10: two different non-empty user ids never share a storage key. *)
Theorem getCartKey_inj (u v : string) :
  u ≠ "" → v ≠ "" → u ≠ v →
  CartProvider.getCartKey (Some u) ≠ CartProvider.getCartKey (Some v).
Proof.
  intros Hu Hv Hne. unfold CartProvider.getCartKey.
  apply String.eqb_neq in Hu, Hv. rewrite Hu, Hv.
  intros H. cbn in H. apply Hne. by injection H.
Qed.

Lemma getCartKey_inj_witness :
  CartProvider.getCartKey (Some "u1") ≠ CartProvider.getCartKey (Some "u12").
Proof. apply (getCartKey_inj "u1" "u12"); discriminate. Defined.

(** X11: the items the provider holds after a mutation are those of the
    operation on the list of lines: rendering and persisting never alter
    them. *)
Theorem mutate_items (m : CartProvider.Mutation) (st : CartProvider.t) :
  CartProvider.items (CartProvider.mutate m st) = mutationResult m (CartProvider.items st).
Proof. destruct m; apply setItems_items. Qed.

(** X12: a mutation writes to the store under the key of the active
    identity only: the snapshot under any other key is as before. *)
Theorem mutate_store_frame (m : CartProvider.Mutation) (st : CartProvider.t) (k : string) :
  k ≠ CartProvider.getCartKey (CartProvider.userId st) →
  CartProvider.localStorage (CartProvider.mutate m st) !! k
    = CartProvider.localStorage st !! k.
Proof. intros Hk. destruct m; by apply setItems_lookup_ne. Qed.

Lemma mutate_store_frame_witness :
  let st := CartProvider.session {["cart_u2" := [Sample.line]]}
              [CartProvider.SetUserId (Some "u1")] in
  CartProvider.localStorage
    (CartProvider.mutate (CartProvider.AddToCart (Sample.tree 4) 1) st) !! "cart_u2"
    = CartProvider.localStorage st !! "cart_u2".
Proof.
  intros st.
  apply (mutate_store_frame (CartProvider.AddToCart (Sample.tree 4) 1) st "cart_u2").
  vm_compute. discriminate.
Defined.

(** X13: while the guest is the active identity a mutation writes
    nothing to the store. *)
Theorem guest_mutation_store (m : CartProvider.Mutation) (st : CartProvider.t) :
  CartProvider.userId st = None →
  CartProvider.localStorage (CartProvider.mutate m st) = CartProvider.localStorage st.
Proof. intros Hu. destruct m; by apply setItems_guest. Qed.

Lemma guest_mutation_store_witness :
  CartProvider.localStorage
    (CartProvider.mutate (CartProvider.AddToCart (Sample.tree 4) 1)
       (CartProvider.mount {["cart_u2" := [Sample.line]]}))
  = CartProvider.localStorage (CartProvider.mount {["cart_u2" := [Sample.line]]}).
Proof.
  apply (guest_mutation_store (CartProvider.AddToCart (Sample.tree 4) 1)
           (CartProvider.mount {["cart_u2" := [Sample.line]]})).
  reflexivity.
Defined.

(** X14: when the identity changes to one with another storage key, the
    items become the snapshot stored under the new key, or the empty cart
    when there is none: no line of the previous identity is carried
    over. *)
Theorem setUserId_loads_stored_cart (u : option string) (st : CartProvider.t) :
  CartProvider.getCartKey u ≠ CartProvider.getCartKey (CartProvider.userId st) →
  CartProvider.items (CartProvider.setUserId u st)
    = default [] (CartProvider.localStorage st !! CartProvider.getCartKey u) ∧
  CartProvider.userId (CartProvider.setUserId u st) = u.
Proof.
  intros Hk. split; [| apply setUserId_userId].
  rewrite setUserId_items by congruence.
  destruct (CartProvider.userId st); [| done].
  by rewrite lookup_insert_ne.
Qed.

Lemma setUserId_loads_stored_cart_witness :
  let st := CartProvider.session {["cart_u2" := [Sample.line]]}
              [CartProvider.SetUserId (Some "u1");
               CartProvider.Mutate (CartProvider.AddToCart (Sample.tree 4) 1)] in
  CartProvider.items (CartProvider.setUserId (Some "u2") st)
    = default [] (CartProvider.localStorage st !! CartProvider.getCartKey (Some "u2")) ∧
  CartProvider.userId (CartProvider.setUserId (Some "u2") st) = Some "u2".
Proof.
  intros st. apply (setUserId_loads_stored_cart (Some "u2") st).
  vm_compute. discriminate.
Defined.

(** X15: when a logged-in identity is replaced by an identity with
    another storage key, its items are stored under its own key. *)
Theorem setUserId_flushes_previous (u : option string) (a : string) (st : CartProvider.t) :
  CartProvider.userId st = Some a →
  CartProvider.getCartKey u ≠ CartProvider.getCartKey (Some a) →
  CartProvider.localStorage (CartProvider.setUserId u st) !! CartProvider.getCartKey (Some a)
    = Some (CartProvider.items st).
Proof.
  intros Ha Hk. rewrite setUserId_lookup, Ha.
  rewrite decide_False by (intros [? _]; congruence).
  by rewrite decide_True by eauto.
Qed.

Lemma setUserId_flushes_previous_witness :
  let st := CartProvider.session ∅
              [CartProvider.SetUserId (Some "u1");
               CartProvider.Mutate (CartProvider.AddToCart (Sample.tree 4) 1)] in
  CartProvider.localStorage (CartProvider.setUserId None st)
    !! CartProvider.getCartKey (Some "u1")
    = Some (CartProvider.items st).
Proof.
  intros st. apply (setUserId_flushes_previous None "u1" st); [reflexivity |].
  vm_compute. discriminate.
Defined.

(** X16: an identity change writes under the keys of the previous and of
    the new identity only: the snapshot under any other key is as
    before. *)
Theorem setUserId_store_frame (u : option string) (st : CartProvider.t) (k : string) :
  k ≠ CartProvider.getCartKey u →
  k ≠ CartProvider.getCartKey (CartProvider.userId st) →
  CartProvider.localStorage (CartProvider.setUserId u st) !! k
    = CartProvider.localStorage st !! k.
Proof.
  intros Hu Hold. rewrite setUserId_lookup.
  rewrite !decide_False by (intros [? _]; congruence). done.
Qed.

Lemma setUserId_store_frame_witness :
  let st := CartProvider.session {["cart_u3" := [Sample.line]]}
              [CartProvider.SetUserId (Some "u1")] in
  CartProvider.localStorage (CartProvider.setUserId (Some "u2") st) !! "cart_u3"
    = CartProvider.localStorage st !! "cart_u3".
Proof.
  intros st. apply (setUserId_store_frame (Some "u2") st "cart_u3");
    vm_compute; discriminate.
Defined.

(** X17: [setUserId] called with the identity that is already active and
    logged in leaves the identity, empties the items and stores the empty
    cart under the identity's key. *)
Theorem setUserId_active_key_empties (a : string) (st : CartProvider.t) :
  CartProvider.userId st = Some a →
  CartProvider.items (CartProvider.setUserId (Some a) st) = [] ∧
  CartProvider.localStorage (CartProvider.setUserId (Some a) st)
    !! CartProvider.getCartKey (Some a) = Some [] ∧
  CartProvider.userId (CartProvider.setUserId (Some a) st) = Some a.
Proof.
  intros Ha.
  assert (Hitems : CartProvider.items (CartProvider.setUserId (Some a) st) = []).
  { unfold CartProvider.setUserId. rewrite Ha, bool_decide_false by (by intros ?).
    unfold CartProvider.render. simpl. by rewrite ?persistEffect_items. }
  split_and!; [done | | apply setUserId_userId].
  rewrite setUserId_lookup, decide_True by eauto. by rewrite Hitems.
Qed.

Lemma setUserId_active_key_empties_witness :
  let st := CartProvider.session ∅
              [CartProvider.SetUserId (Some "u1");
               CartProvider.Mutate (CartProvider.AddToCart (Sample.tree 4) 1)] in
  CartProvider.items (CartProvider.setUserId (Some "u1") st) = [] ∧
  CartProvider.localStorage (CartProvider.setUserId (Some "u1") st)
    !! CartProvider.getCartKey (Some "u1") = Some [] ∧
  CartProvider.userId (CartProvider.setUserId (Some "u1") st) = Some "u1".
Proof.
  intros st. apply (setUserId_active_key_empties "u1" st). reflexivity.
Defined.

(** ** The application: identity sync *)

Section AppSync.
Import CartProvider.

Lemma mount_inSync store : App.inSync (App.mount store).
Proof.
  unfold App.inSync, App.mount, mount. simpl. rewrite ?render_userId. simpl.
  split; [done | by intros [? ?]].
Qed.

Lemma handle_inSync st e : App.inSync st → App.inSync (App.handle st e).
Proof.
  intros [Hid Hp]. destruct e as [newId | m]; simpl.
  - unfold App.setUser. case_bool_decide; [done |]. split; simpl.
    + apply setUserId_userId.
    + rewrite setUserId_userId. intros Hu. unfold setUserId.
      by apply render_persisted.
  - split; simpl.
    + by rewrite mutate_userId.
    + rewrite mutate_userId. intros Hu.
      destruct m; apply setItems_persisted; auto.
Qed.

Lemma run_inSync store events : App.inSync (App.run store events).
Proof.
  unfold App.run.
  assert (Hgen : ∀ st, App.inSync st → App.inSync (fold_left App.handle events st)).
  { induction events as [|e events IH]; intros st Hst; [done |].
    simpl. by apply IH, handle_inSync. }
  apply Hgen, mount_inSync.
Qed.

End AppSync.

(** X18: at every point of a run of the application the identity of the
    cart provider is the id of the authenticated user (the guest when
    there is none or the id is empty), and whenever a user is logged in
    the snapshot stored under the user's key equals the items in
    memory. *)
Theorem App_run_in_sync (store : gmap string (list CartItem)) (events : list App.Event) :
  CartProvider.userId (App.cart (App.run store events))
    = App.orNull (App.user (App.run store events)) ∧
  (is_Some (CartProvider.userId (App.cart (App.run store events))) →
   CartProvider.persisted (App.cart (App.run store events))).
Proof. apply run_inSync. Qed.

(** X19: in a run of the application, when the logged-in user logs out
    and the same user logs in again, the items are those the user had
    before logging out. *)
Theorem App_relogin_restores_cart (store : gmap string (list CartItem))
    (events : list App.Event) (a : string) :
  App.user (App.run store events) = Some a →
  a ≠ "" →
  let st := App.run store events in
  let back := App.handle (App.handle st (App.SetUser None)) (App.SetUser (Some a)) in
  CartProvider.items (App.cart back) = CartProvider.items (App.cart st) ∧
  CartProvider.userId (App.cart back) = Some a ∧
  App.user back = Some a.
Proof.
  intros Huser Ha. cbv zeta.
  destruct (run_inSync store events) as [Hid _].
  revert Huser Hid. generalize (App.run store events) as st. intros st Huser Hid.
  rewrite Huser in Hid. simpl in Hid.
  apply String.eqb_neq in Ha. rewrite Ha in Hid.
  simpl.
  assert (Hout : App.setUser None st =
                 App.mk None (CartProvider.setUserId None (App.cart st))).
  { unfold App.setUser. rewrite Huser. by rewrite bool_decide_false. }
  rewrite Hout.
  assert (Hin : ∀ c, App.setUser (Some a) (App.mk None c) =
                     App.mk (Some a) (CartProvider.setUserId (Some a) c)).
  { intros c. unfold App.setUser. simpl. by rewrite Ha. }
  rewrite Hin. simpl.
  split_and!; [| apply setUserId_userId | done].
  rewrite setUserId_items by (rewrite setUserId_userId; done).
  rewrite setUserId_userId, setUserId_lookup, Hid.
  rewrite decide_False by (by intros [_ [? ?]]).
  by rewrite decide_True by eauto.
Qed.

Lemma App_relogin_restores_cart_witness :
  let st := App.run ∅ [App.SetUser (Some "u1");
                       App.CartMutation (CartProvider.AddToCart (Sample.tree 4) 2)] in
  let back := App.handle (App.handle st (App.SetUser None)) (App.SetUser (Some "u1")) in
  CartProvider.items (App.cart st) = [newLine (Sample.tree 4) 2] ∧
  CartProvider.items (App.cart back) = CartProvider.items (App.cart st) ∧
  CartProvider.userId (App.cart back) = Some "u1" ∧
  App.user back = Some "u1".
Proof.
  intros st back. split; [reflexivity |].
  apply (App_relogin_restores_cart ∅
           [App.SetUser (Some "u1");
            App.CartMutation (CartProvider.AddToCart (Sample.tree 4) 2)] "u1");
    [reflexivity | discriminate].
Defined.

(** ** The order page *)

(** X20: once a payment has succeeded and the order returned by the
    server is paid or cancelled, pressing pay again does nothing: the
    page is unchanged and in all one pay request has been sent. *)
Theorem handlePay_twice (translate : string → string → string)
    (second : Settled (option Order.t)) (st : OrderDetails.t) (o updated : Order.t) :
  OrderDetails.order st = Some o →
  Order.status o = created →
  Order.status updated ≠ created →
  let once := OrderDetails.handlePay translate (Fulfilled (Some updated)) st in
  OrderDetails.handlePay translate second once = once ∧
  OrderDetails.order once = Some updated ∧
  OrderDetails.error once = None ∧
  OrderDetails.requests once = OrderDetails.requests st ++ [PayOrder (Order.id o)].
Proof.
  intros Ho Hcreated Hdone once.
  assert (Honce : once =
    OrderDetails.mk (Some updated) (OrderDetails.loading st) None false
      (OrderDetails.requests st ++ [PayOrder (Order.id o)]) (OrderDetails.timers st)).
  { unfold once, OrderDetails.handlePay. by rewrite Ho, Hcreated. }
  rewrite Honce. split_and!; try done.
  unfold OrderDetails.handlePay. simpl. by destruct (Order.status updated).
Qed.

Lemma handlePay_twice_witness :
  let once := OrderDetails.handlePay Sample.translate
                (Fulfilled (Some (Sample.order paid))) (Sample.orderPage created) in
  OrderDetails.handlePay Sample.translate (Rejected NotAnError) once = once ∧
  OrderDetails.order once = Some (Sample.order paid) ∧
  OrderDetails.error once = None ∧
  OrderDetails.requests once = [PayOrder "o1"].
Proof.
  apply (handlePay_twice Sample.translate (Rejected NotAnError)
           (Sample.orderPage created) (Sample.order created) (Sample.order paid));
    [reflexivity | reflexivity | discriminate].
Defined.

(** X21: the pay button is shown only on the order screen of an order
    cached as created, and pressing it then sends exactly one request,
    the payment of the order on screen, and ends with the paying flag
    down whatever the server answers. *)
Theorem payButton_sends_one_request (translate : string → string → string)
    (payOrder : Settled (option Order.t)) (st : OrderDetails.t) :
  OrderDetails.payButtonShown st = true →
  ∃ o, OrderDetails.view st = OrderDetails.OrderView o ∧
       Order.status o = created ∧
       OrderDetails.requests (OrderDetails.handlePay translate payOrder st)
         = OrderDetails.requests st ++ [PayOrder (Order.id o)] ∧
       OrderDetails.paying (OrderDetails.handlePay translate payOrder st) = false.
Proof.
  unfold OrderDetails.payButtonShown.
  destruct (OrderDetails.view st) as [| |o] eqn:Hview; try done.
  destruct (Order.status o) eqn:Hstatus; try done. intros _.
  exists o. split_and!; try done.
  all: assert (Ho : OrderDetails.order st = Some o)
    by (unfold OrderDetails.view in Hview;
        destruct (OrderDetails.loading st), (OrderDetails.error st) as [m|],
          (OrderDetails.order st); try done;
        try destruct (String.eqb m ""); congruence).
  all: unfold OrderDetails.handlePay; rewrite Ho, Hstatus; by destruct payOrder as [|err].
Qed.

Lemma payButton_sends_one_request_witness :
  ∃ o, OrderDetails.view (Sample.orderPage created) = OrderDetails.OrderView o ∧
       Order.status o = created ∧
       OrderDetails.requests
         (OrderDetails.handlePay Sample.translate (Rejected NotAnError)
            (Sample.orderPage created))
         = OrderDetails.requests (Sample.orderPage created) ++ [PayOrder (Order.id o)] ∧
       OrderDetails.paying
         (OrderDetails.handlePay Sample.translate (Rejected NotAnError)
            (Sample.orderPage created)) = false.
Proof.
  apply (payButton_sends_one_request Sample.translate (Rejected NotAnError)
           (Sample.orderPage created)).
  reflexivity.
Defined.

(** X22: reloading the order never clears a stored error, whatever the
    server answers and however often; a reload that fails keeps the
    cached order, and a reload without a route id sends nothing. *)
Theorem loadOrder_keeps_error (routeId : option string)
    (answers : list (Settled (option Order.t))) (err : Thrown) (st : OrderDetails.t) :
  is_Some (OrderDetails.error st) →
  is_Some (OrderDetails.error
             (fold_left (λ page answer, OrderDetails.loadOrder routeId answer page)
                answers st)) ∧
  OrderDetails.order (OrderDetails.loadOrder routeId (Rejected err) st)
    = OrderDetails.order st ∧
  OrderDetails.loadOrder None (Rejected err) st = st.
Proof.
  intros Herr. split_and!.
  - revert st Herr. induction answers as [|answer answers IH]; intros st Herr; [done |].
    simpl. apply IH. unfold OrderDetails.loadOrder.
    destruct routeId as [rid|]; [| done].
    destruct (String.eqb rid ""); [done |].
    destruct answer; simpl; [done | by eexists].
  - unfold OrderDetails.loadOrder. destruct routeId as [rid|]; [| done].
    by destruct (String.eqb rid "").
  - done.
Qed.

Lemma loadOrder_keeps_error_witness :
  let st := OrderDetails.handlePay Sample.translate
              (Rejected (ErrorObject "Payment declined")) (Sample.orderPage created) in
  is_Some (OrderDetails.error
             (fold_left (λ page answer, OrderDetails.loadOrder (Some "o1") answer page)
                [Fulfilled (Some (Sample.order paid)); Fulfilled (Some (Sample.order paid))]
                st)) ∧
  OrderDetails.order (OrderDetails.loadOrder (Some "o1") (Rejected NotAnError) st)
    = OrderDetails.order st ∧
  OrderDetails.loadOrder None (Rejected NotAnError) st = st.
Proof.
  intros st.
  apply (loadOrder_keeps_error (Some "o1")
           [Fulfilled (Some (Sample.order paid)); Fulfilled (Some (Sample.order paid))]
           NotAnError st).
  by eexists.
Defined.

(** ** The cart page *)

(** X23: on a cart with one line per product, the quantity control of
    the cart page leaves the same lines as [updateQuantity] of the
    context: the page's own stock test never changes the outcome. *)
Theorem handleQuantityChange_is_updateQuantity (pid : string) (newQuantity : Z)
    (lines : list CartItem) :
  NoDup (productId <$> lines) →
  Cart.handleQuantityChange pid newQuantity lines = updateQuantity pid newQuantity lines.
Proof.
  intros Hnd. unfold Cart.handleQuantityChange.
  destruct (Z.ltb_spec newQuantity 1) as [Hlt | Hge].
  - unfold updateQuantity, Updater.updateQuantity.
    by destruct (Z.leb_spec newQuantity 0); [| lia].
  - destruct (findLine pid lines) as [item|] eqn:Hfind; [| done].
    destruct (Z.gtb_spec newQuantity (stock item)) as [Hgt | Hle]; [| done].
    unfold updateQuantity, Updater.updateQuantity.
    destruct (Z.leb_spec newQuantity 0); [lia |]. simpl.
    symmetry. by apply (updateQuantity_refusal pid newQuantity lines item).
Qed.

Lemma handleQuantityChange_is_updateQuantity_witness :
  Cart.handleQuantityChange "p1" 9 [Sample.line] = updateQuantity "p1" 9 [Sample.line].
Proof.
  apply (handleQuantityChange_is_updateQuantity "p1" 9 [Sample.line]).
  apply NoDup_singleton.
Defined.





(** X26: a submission by a logged-in user of a cart with lines that the
    server accepts sends one request with the product id and quantity of
    every line in order (no price), empties the cart, clears the error
    and goes to the page of the new order; submitting again then fails
    with the empty-cart error and sends nothing more. *)
Theorem handleCheckout_accepted (translate : string → string → string)
    (nullOrderMessage orderId : string) (again : Settled (option string))
    (st : Cart.t) :
  Cart.items st ≠ [] →
  let submit := Cart.handleCheckout translate nullOrderMessage true in
  let sent := CreateOrder ((λ item, (productId item, quantity item)) <$> Cart.items st) in
  submit (Fulfilled (Some orderId)) st =
    Cart.mk [] false None
      (Cart.navigated st ++ [String.append "/orders/" orderId])
      (Cart.requests st ++ [sent]) ∧
  submit again (submit (Fulfilled (Some orderId)) st) =
    Cart.mk [] false (Some (translate "cart.emptyCart" "Your cart is empty"))
      (Cart.navigated st ++ [String.append "/orders/" orderId])
      (Cart.requests st ++ [sent]).
Proof.
  intros Hlines submit sent.
  assert (Hfirst : submit (Fulfilled (Some orderId)) st =
    Cart.mk [] false None
      (Cart.navigated st ++ [String.append "/orders/" orderId])
      (Cart.requests st ++ [sent])).
  { unfold submit, Cart.handleCheckout. simpl.
    destruct (Cart.items st); [done | done]. }
  by rewrite Hfirst.
Qed.

Lemma handleCheckout_accepted_witness :
  let submit := Cart.handleCheckout Sample.translate "order is null" true in
  submit (Fulfilled (Some "o7")) (Sample.cartPage [Sample.line]) =
    Cart.mk [] false None ["/orders/o7"] [CreateOrder [("p1", 2)]] ∧
  submit (Fulfilled (Some "o8")) (submit (Fulfilled (Some "o7")) (Sample.cartPage [Sample.line])) =
    Cart.mk [] false (Some "Your cart is empty") ["/orders/o7"] [CreateOrder [("p1", 2)]].
Proof.
  apply (handleCheckout_accepted Sample.translate "order is null" "o7"
           (Fulfilled (Some "o8")) (Sample.cartPage [Sample.line])).
  discriminate.
Defined.

(** ** The product page *)

(** X27: for a product with stock, the quantity selector of the product
    page always ends between 1 and min(stock, 99), whatever value is
    typed or stepped to, and a value in that range is taken as it is. *)
Theorem selector_in_range (p : Product.t) (newQuantity : Z) :
  1 <= Product.stock p →
  1 <= ProductDetails.handleQuantityChange (Some p) newQuantity
    <= Z.min (Product.stock p) 99 ∧
  (1 <= newQuantity <= Z.min (Product.stock p) 99 →
   ProductDetails.handleQuantityChange (Some p) newQuantity = newQuantity).
Proof.
  intros Hstock. unfold ProductDetails.handleQuantityChange, ProductDetails.maxQuantity.
  destruct (Z.ltb_spec newQuantity 1),
           (Z.gtb_spec newQuantity (Z.min (Product.stock p) 99)); lia.
Qed.

Lemma selector_in_range_witness :
  1 <= ProductDetails.handleQuantityChange (Some (Sample.star 5)) 40
    <= Z.min (Product.stock (Sample.star 5)) 99 ∧
  (1 <= 40 <= Z.min (Product.stock (Sample.star 5)) 99 →
   ProductDetails.handleQuantityChange (Some (Sample.star 5)) 40 = 40).
Proof.
  apply (selector_in_range (Sample.star 5) 40). simpl. lia.
Defined.

Section PageActions.
Variable translate : string → string → string.

Lemma pageAction_invariant (lines : list CartItem) (a : PageAction) :
  NoDup (productId <$> lines) ∧ Forall lineInBounds lines →
  NoDup (productId <$> pageAction translate lines a) ∧
  Forall lineInBounds (pageAction translate lines a).
Proof.
  intros [Hnd Hb]. destruct a as [p selected | pid q | pid]; simpl.
  - unfold ProductDetails.addDisabled. simpl.
    destruct (Z.gtb_spec selected (Product.stock p)) as [Hgt | Hle]; [done |].
    destruct (Z.ltb_spec selected 1) as [Hlt | Hge]; [done |]. simpl.
    destruct (Z.gtb_spec selected (Product.stock p)); [lia |]. simpl.
    destruct (findLine (Product.id p) lines) as [line|] eqn:Hfind.
    + split; [by apply updateQuantity_ids | by apply updateQuantity_bounds].
    + split; [by apply addToCart_ids |].
      apply addToCart_bounds; [done | | done]. simpl. rewrite Hfind.
      apply andb_true_iff. split; [| done].
      apply andb_true_iff. split; apply Z.leb_le; lia.
  - unfold Cart.handleQuantityChange.
    destruct (Z.ltb_spec q 1).
    + split; [by apply removeFromCart_ids | by apply removeFromCart_bounds].
    + destruct (findLine pid lines) as [item|].
      * destruct (q >? stock item); [done |].
        split; [by apply updateQuantity_ids | by apply updateQuantity_bounds].
      * split; [by apply updateQuantity_ids | by apply updateQuantity_bounds].
  - split; [by apply removeFromCart_ids | by apply removeFromCart_bounds].
Qed.

End PageActions.

(** X28: whatever the shopper does through the add button of the product
    page and the quantity and remove controls of the cart page, starting
    from the empty cart, the cart has at most one line per product and
    every line has 1 <= quantity <= the stock recorded on it. *)
Theorem pageActions_keep_bounds (translate : string → string → string)
    (actions : list PageAction) :
  NoDup (productId <$> fold_left (pageAction translate) actions []) ∧
  Forall lineInBounds (fold_left (pageAction translate) actions []).
Proof.
  assert (Hgen : ∀ lines,
    NoDup (productId <$> lines) ∧ Forall lineInBounds lines →
    NoDup (productId <$> fold_left (pageAction translate) actions lines) ∧
    Forall lineInBounds (fold_left (pageAction translate) actions lines)).
  { induction actions as [|a actions IH]; intros lines Hinv; [done |].
    simpl. by apply IH, pageAction_invariant. }
  apply Hgen. split; [apply NoDup_nil_2 | apply Forall_nil_2].
Qed.

(** X29: when the product already has a line and the selected quantity
    fits the product's current stock but exceeds the stock recorded on
    the line, [handleAddToCart] leaves every line as it is, raises no
    alert, and still resets the selector to 1 and shows the adding
    state. *)
Theorem handleAddToCart_stale_stock (translate : string → string → string)
    (p : Product.t) (st : ProductDetails.t) (line : CartItem) :
  NoDup (productId <$> ProductDetails.lines st) →
  findLine (Product.id p) (ProductDetails.lines st) = Some line →
  0 <= stock line < ProductDetails.quantity st →
  ProductDetails.quantity st <= Product.stock p →
  ProductDetails.handleAddToCart translate (Some p) st =
    ProductDetails.mk 1 true (ProductDetails.alerts st) (ProductDetails.lines st).
Proof.
  intros Hnd Hfind [Hzero Hline] Hstock. unfold ProductDetails.handleAddToCart.
  destruct (Z.gtb_spec (ProductDetails.quantity st) (Product.stock p)); [lia |].
  rewrite Hfind. f_equal.
  unfold updateQuantity, Updater.updateQuantity.
  destruct (Z.leb_spec (ProductDetails.quantity st) 0); [lia |]. simpl.
  by apply (updateQuantity_refusal _ _ _ line).
Qed.

Lemma handleAddToCart_stale_stock_witness :
  ProductDetails.handleAddToCart Sample.translate (Some (Sample.star 20))
    (ProductDetails.mk 8 false [] [Sample.line]) =
  ProductDetails.mk 1 true [] [Sample.line].
Proof.
  apply (handleAddToCart_stale_stock Sample.translate (Sample.star 20)
           (ProductDetails.mk 8 false [] [Sample.line]) Sample.line);
    [apply NoDup_singleton | reflexivity | simpl; lia | simpl; lia].
Defined.
